(** * Question scrapers: a shallow embedding of the three scripts

    The repository holds three scripts that harvest "system design
    interview question" titles for a fixed list of companies:

    - [scrape_questions.py]: one search query per company, a fallback
      table, a text file as output;
    - [scrape_system_design_questions.py]: the class [SystemDesignScraper],
      three sources per company, a fallback table, a length filter, a JSON
      file as output;
    - [enhanced_scraper.py]: ten search queries per company, no fallback
      table, a text file as output.

    Each script is embedded in a module of its own, named after the file.
    What the scripts share (Python strings, lists, sets and dicts, the
    network, exceptions) comes first. *)

From Stdlib Require Import List String Ascii Bool Arith ZArith Lia.
From Stdlib Require Import Permutation DecimalString.
Import ListNotations.
Open Scope string_scope.
Open Scope list_scope.
Open Scope nat_scope.

(* ================================================================== *)
(** ** Python strings *)

(** A Python [str] is modelled by [string]: one [ascii] per code point,
    so the model covers the code points below 256 and [len] is
    [String.length]. *)

Definition in_range (lo hi n : nat) : bool :=
  Nat.leb lo n && Nat.leb n hi.

(** [str.lower] on one code point: A-Z and the Latin-1 capitals
    (U+00C0..U+00DE but U+00D7) move 32 places up. *)
Definition lower_char (c : ascii) : ascii :=
  let n := nat_of_ascii c in
  if in_range 65 90 n || (in_range 192 222 n && negb (n =? 215))
  then ascii_of_nat (n + 32) else c.

Fixpoint lower (s : string) : string :=
  match s with
  | EmptyString => EmptyString
  | String c s' => String (lower_char c) (lower s')
  end.

(** [str.upper] on one code point.  U+00DF uppercases to two letters;
    U+00B5 and U+00FF uppercase to code points above 255, which the model
    does not have: they are left as they are. *)
Definition upper_char (c : ascii) : string :=
  let n := nat_of_ascii c in
  if in_range 97 122 n || (in_range 224 254 n && negb (n =? 247))
  then String (ascii_of_nat (n - 32)) EmptyString
  else if n =? 223 then "SS"
  else String c EmptyString.

Fixpoint upper (s : string) : string :=
  match s with
  | EmptyString => EmptyString
  | String c s' => (upper_char c ++ upper s')%string
  end.

(** [sub in s] *)
Fixpoint contains (sub s : string) : bool :=
  String.prefix sub s ||
  match s with
  | EmptyString => false
  | String _ s' => contains sub s'
  end.

(** The one-character string of a line feed *)
Definition nl : string := String (ascii_of_nat 10) EmptyString.

(** [c * n] for a one-character string [c] *)
Fixpoint repeat_char (c : ascii) (n : nat) : string :=
  match n with
  | O => EmptyString
  | S n' => String c (repeat_char c n')
  end.

(** [str(i)] for a non-negative integer *)
Definition str_of_nat (n : nat) : string :=
  NilEmpty.string_of_uint (Nat.to_uint n).

(** [sep.join(parts)] *)
Definition join (sep : string) (parts : list string) : string :=
  String.concat sep parts.

(** [any(word in text for word in words)] *)
Definition any_in (words : list string) (text : string) : bool :=
  existsb (fun word => contains word text) words.

(* ================================================================== *)
(** ** Python lists, sets and dicts *)

(** [enumerate(xs, i)] *)
Fixpoint enumerate {A : Type} (xs : list A) (i : nat) : list (nat * A) :=
  match xs with
  | [] => []
  | x :: xs' => (i, x) :: enumerate xs' (S i)
  end.

(** A [set] of strings is modelled by the sequence of its insertions.
    The order in which Python iterates over a set depends on the hashes of
    its members, which for strings change from one run to the next.  The
    scripts rely on nothing but the contract of [list(set)]: each member
    once, in some order.  [SetOrder] is that contract; the run is
    parametrised by one. *)
Record SetOrder : Type := {
  list_of_set : list string -> list string;
  list_of_set_perm :
    forall xs, Permutation (list_of_set xs) (nodup string_dec xs)
}.

(** A [dict] with string keys, in insertion order. *)
Definition dict (V : Type) : Type := list (string * V).

(** [d.get(k)] *)
Fixpoint dict_get {V : Type} (k : string) (d : dict V) : option V :=
  match d with
  | [] => None
  | (k', v) :: d' => if String.eqb k k' then Some v else dict_get k d'
  end.

(** [k in d] *)
Definition dict_mem {V : Type} (k : string) (d : dict V) : bool :=
  match dict_get k d with Some _ => true | None => false end.

(** [d[k] = v]: a key already present keeps its place. *)
Fixpoint dict_set {V : Type} (k : string) (v : V) (d : dict V) : dict V :=
  match d with
  | [] => [(k, v)]
  | (k', v') :: d' =>
      if String.eqb k k' then (k, v) :: d' else (k', v') :: dict_set k v d'
  end.

(** [d.keys()] *)
Definition dict_keys {V : Type} (d : dict V) : list string := map fst d.

(* ================================================================== *)
(** ** The network *)

(** The three URL templates of the scripts.  A request is an endpoint and
    the query string that [quote_plus] encodes into the URL; the header
    bundle, the timeout and the sleeps between requests are not
    modelled. *)
Inductive endpoint : Type :=
| DuckDuckGoHtml      (* https://duckduckgo.com/html/?q=... *)
| LeetCodeDiscuss     (* https://leetcode.com/discuss/interview-question?...&query=... *)
| GitHubRepoSearch.   (* https://api.github.com/search/repositories?q=...&sort=stars&order=desc *)

(** One entry of the [items] array of a repository search: [name] and
    [description]; [None] is a missing, null or empty description. *)
Record repo : Type := {
  repo_name : string;
  repo_description : option string
}.

(** What [response.json()] gives: the decoding (or the walk through the
    decoded value) raises, or the [items] array (empty when the key is
    missing). *)
Inductive json_view : Type :=
| JsonInvalid (msg : string)
| JsonItems (items : list repo).

(** The body of a response, seen through the selectors of the scripts:
    - [result_anchors]: [get_text(strip=True)] of every [a.result__a],
      in document order;
    - [topic_titles]: for every [div.topic-title], the text of its first
      [a], if it has one;
    - [body_json]: the body decoded as JSON. *)
Record body : Type := {
  result_anchors : list string;
  topic_titles : list (option string);
  body_json : json_view
}.

Record response : Type := {
  status_code : Z;
  content : body
}.

(** Python exceptions the scripts can meet, with [str(e)]. *)
Inductive exn : Type :=
| RequestException (msg : string)
| JSONDecodeError (msg : string)
| TypeError (msg : string).

Inductive outcome : Type :=
| Raised (e : exn)
| Responded (r : response).

(** The network answers a request with a response or [session.get]
    raises.  Within one run no request is sent twice. *)
Definition network : Type := endpoint -> string -> outcome.

(* ================================================================== *)
(** ** Runs: state, exceptions, output *)

(** What the [except] handlers print.  Progress messages are not
    recorded. *)
Inductive event : Type :=
| ErrorSearchingFor (company : string) (e : exn)
| ErrorSearchingLeetCode (company : string) (e : exn)
| ErrorSearchingAlternative (company : string) (e : exn)
| ErrorSearchingGitHub (company : string) (e : exn)
| ErrorProcessing (company : string) (e : exn)
| ErrorWithQuery (query : string) (e : exn).

Inductive file_content : Type :=
| Text (s : string)
| Json (members : dict (list string)).

(** The state of a run: the [results] attribute of the scraper object
    (only [scrape_system_design_questions] has one), the error reports
    printed so far and the files written. *)
Record state : Type := {
  results : dict (list string);
  stdout : list event;
  files : dict file_content
}.

Definition initial_state : state :=
  {| results := []; stdout := []; files := [] |}.

Inductive result (A : Type) : Type :=
| Ok (a : A)
| Raise (e : exn).
Arguments Ok {A} a.
Arguments Raise {A} e.

(** A computation returns or raises; what it did to the state before it
    raised stays done. *)
Definition M (A : Type) : Type := state -> result A * state.

Definition ret {A : Type} (a : A) : M A := fun s => (Ok a, s).

Definition bind {A B : Type} (m : M A) (k : A -> M B) : M B :=
  fun s =>
    match m s with
    | (Ok a, s') => k a s'
    | (Raise e, s') => (Raise e, s')
    end.

Definition raise {A : Type} (e : exn) : M A := fun s => (Raise e, s).

(** [try: m  except Exception as e: handler(e)] *)
Definition try_except {A : Type} (m : M A) (handler : exn -> M A) : M A :=
  fun s =>
    match m s with
    | (Ok a, s') => (Ok a, s')
    | (Raise e, s') => handler e s'
    end.

Notation "x <- m ;; k" := (bind m (fun x => k))
  (at level 61, m at next level, right associativity).
Notation "m ;;; k" := (bind m (fun _ => k))
  (at level 61, right associativity).

Definition print (ev : event) : M unit :=
  fun s => (Ok tt, {| results := results s;
                      stdout := stdout s ++ [ev];
                      files := files s |}).

(** [self.results[company] = questions] *)
Definition set_result (company : string) (questions : list string) : M unit :=
  fun s => (Ok tt, {| results := dict_set company questions (results s);
                      stdout := stdout s;
                      files := files s |}).

(** [open(name, 'w')]: the file is created or truncated. *)
Definition open_w (name : string) : M unit :=
  fun s => (Ok tt, {| results := results s;
                      stdout := stdout s;
                      files := dict_set name (Text "") (files s) |}).

(** [f.write(text)] on a text file opened by [open_w] *)
Definition write (name : string) (text : string) : M unit :=
  fun s =>
    let old := match dict_get name (files s) with
               | Some (Text t) => t
               | _ => ""
               end in
    (Ok tt, {| results := results s;
               stdout := stdout s;
               files := dict_set name (Text (old ++ text)%string) (files s) |}).

(** [for x in xs: body(x)] *)
Fixpoint for_each {A : Type} (xs : list A) (body : A -> M unit) : M unit :=
  match xs with
  | [] => ret tt
  | x :: xs' => body x ;;; for_each xs' body
  end.

(** [for x in xs: acc = body(acc, x)]: a loop that updates a local *)
Fixpoint for_fold {A B : Type} (xs : list A) (acc : B) (body : B -> A -> M B)
  : M B :=
  match xs with
  | [] => ret acc
  | x :: xs' => acc' <- body acc x ;; for_fold xs' acc' body
  end.

Definition value_of {A : Type} (m : M A) (s : state) : result A := fst (m s).
Definition state_after {A : Type} (m : M A) (s : state) : state := snd (m s).

Section Network.
Variable net : network.

(** [session.get(url, headers=..., timeout=10)] *)
Definition session_get (ep : endpoint) (query : string) : M response :=
  fun s =>
    match net ep query with
    | Raised e => (Raise e, s)
    | Responded r => (Ok r, s)
    end.
End Network.

(** [response.json()] followed by [data.get('items', [])] *)
Definition response_items (r : response) : M (list repo) :=
  match body_json (content r) with
  | JsonInvalid msg => raise (JSONDecodeError msg)
  | JsonItems items => ret items
  end.

(** [xs.extend(ys)], where [ys] may be [None] *)
Definition extend (xs : list string) (ys : option (list string))
  : M (list string) :=
  match ys with
  | Some ys => ret (xs ++ ys)
  | None => raise (TypeError "'NoneType' object is not iterable")
  end.

(** [random.choice(xs)], with the index that the generator draws: a
    number below [len(xs)]. *)
Definition choice (draw : nat) (xs : list string) : string := nth draw xs "".

(** [s.add(x)] on a set given by its insertions *)
Definition set_add (s : list string) (x : string) : list string := s ++ [x].

(** ['=' * 60] *)
Definition rule60 : string := repeat_char "=" 60.

(* ================================================================== *)
(** ** scrape_questions.py *)

Module scrape_questions.
Section Run.
Variable so : SetOrder.
Variable net : network.

Definition user_agents : list string :=
  [ "Mozilla/5.0 (Macintosh; Intel Mac OS X 10_15_7) AppleWebKit/537.36 (KHTML, like Gecko) Chrome/120.0.0.0 Safari/537.36";
    "Mozilla/5.0 (Windows NT 10.0; Win64; x64) AppleWebKit/537.36 (KHTML, like Gecko) Chrome/120.0.0.0 Safari/537.36";
    "Mozilla/5.0 (X11; Linux x86_64) AppleWebKit/537.36 (KHTML, like Gecko) Chrome/120.0.0.0 Safari/537.36" ].

Definition get_headers (draw : nat) : dict string :=
  [ ("User-Agent", choice draw user_agents);
    ("Accept",
     "text/html,application/xhtml+xml,application/xml;q=0.9,*/*;q=0.8");
    ("Accept-Language", "en-US,en;q=0.5");
    ("Connection", "keep-alive") ].

Definition known_questions : dict (list string) :=
  [ ("Atlassian",
     [ "Design a collaborative document editing system like Confluence";
       "Design a project management tool like Jira";
       "Design a real-time chat system for teams";
       "Design a file sharing platform";
       "Design a notification system" ]);
    ("PayPal",
     [ "Design a payment processing system";
       "Design a fraud detection system";
       "Design a digital wallet";
       "Design a money transfer system";
       "Design a merchant payment gateway" ]);
    ("Mastercard",
     [ "Design a credit card transaction system";
       "Design a real-time fraud detection system";
       "Design a global payment network";
       "Design a loyalty rewards system";
       "Design a merchant acquiring platform" ]) ].

Definition search_query (company : string) : string :=
  (company ++
   " system design interview questions site:reddit.com OR site:leetcode.com")%string.

Definition search_questions (company : string) : M (list string) :=
  let questions := [] in
  (* Search DuckDuckGo for interview questions *)
  questions <-
    try_except
      (response <- session_get net DuckDuckGoHtml (search_query company) ;;
       ret (if (status_code response =? 200)%Z then
              let results := result_anchors (content response) in
              fold_left
                (fun questions title =>
                   if any_in ["design"; "system"; "interview"] (lower title)
                   then questions ++ [title] else questions)
                (firstn 5 results) questions
            else questions))
      (fun e => print (ErrorSearchingFor company e) ;;; ret questions) ;;
  (* Add known questions based on company *)
  let questions :=
    match dict_get company known_questions with
    | Some known => questions ++ known
    | None => questions
    end in
  ret (list_of_set so questions).

Definition output_file : string := "system_design_questions.txt".

(** The body of [main], for a list of companies. *)
Definition main_for (companies : list string) : M unit :=
  all_content <-
    for_fold companies []
      (fun all_content company =>
         questions <- search_questions company ;;
         let all_content := all_content ++ [(nl ++ rule60)%string] in
         let all_content :=
           all_content ++ [(upper company ++ " SYSTEM DESIGN QUESTIONS")%string] in
         let all_content := all_content ++ [rule60] in
         ret (fold_left
                (fun all_content '(i, question) =>
                   all_content ++ [(str_of_nat i ++ ". " ++ question)%string])
                (enumerate questions 1) all_content)) ;;
  (* Save to text file *)
  open_w output_file ;;;
  write output_file (join nl all_content).

Definition companies : list string := ["Atlassian"; "PayPal"; "Mastercard"].

Definition main : M unit := main_for companies.
End Run.
End scrape_questions.

(* ================================================================== *)
(** ** scrape_system_design_questions.py *)

Module scrape_system_design_questions.
Section Run.
Variable so : SetOrder.
Variable net : network.

(** [self.user_agents] *)
Definition user_agents : list string :=
  [ "Mozilla/5.0 (Macintosh; Intel Mac OS X 10_15_7) AppleWebKit/537.36 (KHTML, like Gecko) Chrome/120.0.0.0 Safari/537.36";
    "Mozilla/5.0 (Windows NT 10.0; Win64; x64) AppleWebKit/537.36 (KHTML, like Gecko) Chrome/120.0.0.0 Safari/537.36";
    "Mozilla/5.0 (X11; Linux x86_64) AppleWebKit/537.36 (KHTML, like Gecko) Chrome/120.0.0.0 Safari/537.36";
    "Mozilla/5.0 (Macintosh; Intel Mac OS X 10_15_7) AppleWebKit/605.1.15 (KHTML, like Gecko) Version/17.1 Safari/605.1.15" ].

Definition get_headers (draw : nat) : dict string :=
  [ ("User-Agent", choice draw user_agents);
    ("Accept",
     "text/html,application/xhtml+xml,application/xml;q=0.9,image/webp,*/*;q=0.8");
    ("Accept-Language", "en-US,en;q=0.5");
    ("Accept-Encoding", "gzip, deflate");
    ("Connection", "keep-alive");
    ("Upgrade-Insecure-Requests", "1") ].

(** [SystemDesignScraper()]: [self.results = {}] *)
Definition new_scraper : M unit :=
  fun s => (Ok tt, {| results := []; stdout := stdout s; files := files s |}).

Definition leetcode_query (company : string) : string :=
  (company ++ " system design interview")%string.

(** Search LeetCode discuss for system design questions.  [None] is
    Python's [None]: the function ends without a [return] when the
    status is not 200. *)
Definition search_leetcode_discuss (company : string)
  : M (option (list string)) :=
  try_except
    (response <- session_get net LeetCodeDiscuss (leetcode_query company) ;;
     if (status_code response =? 200)%Z then
       let questions := [] in
       (* Find discussion topics *)
       let topics := topic_titles (content response) in
       ret (Some
              (fold_left
                 (fun questions title_elem =>
                    match title_elem with
                    | Some title =>
                        if any_in ["system design"; "design"; "architecture"]
                                  (lower title)
                        then questions ++ [title] else questions
                    | None => questions
                    end)
                 (firstn 5 topics) questions))
     else ret None)
    (fun e => print (ErrorSearchingLeetCode company e) ;;; ret (Some [])).

Definition alternative_query (company : string) : string :=
  ("site:reddit.com " ++ company ++ " system design interview questions")%string.

(** Search interview experiences from alternative sources *)
Definition search_glassdoor_alternative (company : string)
  : M (option (list string)) :=
  try_except
    (response <- session_get net DuckDuckGoHtml (alternative_query company) ;;
     if (status_code response =? 200)%Z then
       let questions := [] in
       (* Extract search results *)
       let results := result_anchors (content response) in
       ret (Some
              (fold_left
                 (fun questions title =>
                    if contains "system design" (lower title)
                    then questions ++ [title] else questions)
                 (firstn 3 results) questions))
     else ret None)
    (fun e => print (ErrorSearchingAlternative company e) ;;; ret (Some [])).

Definition github_query (company : string) : string :=
  (company ++ " system design interview questions")%string.

(** Search GitHub repositories for interview questions *)
Definition search_github_repos (company : string)
  : M (option (list string)) :=
  try_except
    (response <- session_get net GitHubRepoSearch (github_query company) ;;
     if (status_code response =? 200)%Z then
       items <- response_items response ;;
       let questions := [] in
       ret (Some
              (fold_left
                 (fun questions repo =>
                    let name := repo_name repo in
                    match repo_description repo with
                    | Some description =>
                        if negb (String.eqb description "") &&
                           contains "system design" (lower description)
                        then questions ++ [(name ++ ": " ++ description)%string]
                        else questions
                    | None => questions
                    end)
                 (firstn 3 items) questions))
     else ret None)
    (fun e => print (ErrorSearchingGitHub company e) ;;; ret (Some [])).

(** Extract common system design questions based on company type *)
Definition extract_common_questions : dict (list string) :=
  [ ("Atlassian",
     [ "Design a collaborative document editing system like Confluence";
       "Design a project management system like Jira";
       "Design a real-time chat system for teams";
       "Design a file sharing and collaboration platform";
       "Design a notification system for team updates" ]);
    ("PayPal",
     [ "Design a payment processing system";
       "Design a fraud detection system";
       "Design a wallet system for digital payments";
       "Design a money transfer system";
       "Design a merchant payment gateway" ]);
    ("Mastercard",
     [ "Design a credit card transaction processing system";
       "Design a real-time fraud detection system";
       "Design a global payment network";
       "Design a loyalty points system";
       "Design a merchant acquiring system" ]) ].

(** Scrape questions for a specific company, with the table that
    [extract_common_questions] returns as a parameter. *)
Definition scrape_company_questions_with
    (common_questions : dict (list string)) (company : string)
  : M (list string) :=
  let all_questions := [] in
  (* Search multiple sources *)
  leetcode_questions <- search_leetcode_discuss company ;;
  all_questions <- extend all_questions leetcode_questions ;;
  alternative_questions <- search_glassdoor_alternative company ;;
  all_questions <- extend all_questions alternative_questions ;;
  github_questions <- search_github_repos company ;;
  all_questions <- extend all_questions github_questions ;;
  (* Add common questions based on company domain *)
  let all_questions :=
    match dict_get company common_questions with
    | Some common => all_questions ++ common
    | None => all_questions
    end in
  (* Remove duplicates and clean up *)
  let unique_questions := list_of_set so all_questions in
  let cleaned_questions :=
    filter (fun q => (10 <? String.length q) && (String.length q <? 200))
           unique_questions in
  set_result company cleaned_questions ;;;
  ret cleaned_questions.

Definition scrape_company_questions (company : string) : M (list string) :=
  scrape_company_questions_with extract_common_questions company.

(** Save results to JSON file: the object written has the members of
    [self.results], in their order. *)
Definition save_results (filename : string) : M unit :=
  fun s => (Ok tt, {| results := results s;
                      stdout := stdout s;
                      files := dict_set filename (Json (results s)) (files s) |}).

Definition output_file : string := "system_design_questions.json".

(** The body of [main], for a list of companies.  [print_results] only
    prints and is left out. *)
Definition main_for (companies : list string) : M unit :=
  new_scraper ;;;
  for_each companies
    (fun company =>
       try_except
         (scrape_company_questions company ;;; ret tt)
         (fun e => print (ErrorProcessing company e))) ;;;
  save_results output_file.

Definition companies : list string := ["Atlassian"; "PayPal"; "Mastercard"].

Definition main : M unit := main_for companies.
End Run.
End scrape_system_design_questions.

(* ================================================================== *)
(** ** enhanced_scraper.py *)

Module enhanced_scraper.
Section Run.
Variable so : SetOrder.
Variable net : network.

Definition user_agents : list string :=
  [ "Mozilla/5.0 (Macintosh; Intel Mac OS X 10_15_7) AppleWebKit/537.36 (KHTML, like Gecko) Chrome/120.0.0.0 Safari/537.36";
    "Mozilla/5.0 (Windows NT 10.0; Win64; x64) AppleWebKit/537.36 (KHTML, like Gecko) Chrome/120.0.0.0 Safari/537.36";
    "Mozilla/5.0 (X11; Linux x86_64) AppleWebKit/537.36 (KHTML, like Gecko) Chrome/120.0.0.0 Safari/537.36" ].

Definition get_headers (draw : nat) : dict string :=
  [ ("User-Agent", choice draw user_agents);
    ("Accept",
     "text/html,application/xhtml+xml,application/xml;q=0.9,*/*;q=0.8");
    ("Accept-Language", "en-US,en;q=0.5");
    ("Connection", "keep-alive") ].

Definition search_queries (company : string) : list string :=
  [ (company ++ " system design interview questions")%string;
    (company ++ " senior software engineer interview system design")%string;
    (company ++ " L5 L6 system design round")%string;
    (company ++ " staff engineer system design interview")%string;
    (company ++ " principal engineer interview experience")%string;
    ("site:leetcode.com " ++ company ++ " system design")%string;
    ("site:reddit.com " ++ company ++ " interview system design")%string;
    ("site:glassdoor.com " ++ company ++ " system design questions")%string;
    ("site:github.com " ++ company ++ " system design interview")%string;
    (company ++ " onsite interview system design round")%string ].

Definition search_comprehensive (company : string) : M (list string) :=
  let all_questions := [] in
  all_questions <-
    for_fold (search_queries company) all_questions
      (fun all_questions query =>
         try_except
           (response <- session_get net DuckDuckGoHtml query ;;
            ret (if (status_code response =? 200)%Z then
                   let results := result_anchors (content response) in
                   fold_left
                     (fun all_questions title =>
                        if any_in ["design"; "system"; "interview"; "experience"]
                                  (lower title)
                        then set_add all_questions title else all_questions)
                     (firstn 3 results) all_questions
                 else all_questions))
           (fun e => print (ErrorWithQuery query e) ;;; ret all_questions)) ;;
  ret (list_of_set so all_questions).

Definition output_file : string := "additional_questions.txt".

(** The body of [main], for a list of companies. *)
Definition main_for (companies : list string) : M unit :=
  open_w output_file ;;;
  for_each companies
    (fun company =>
       questions <- search_comprehensive company ;;
       write output_file (nl ++ rule60 ++ nl) ;;;
       write output_file (upper company ++ " - ADDITIONAL QUESTIONS FOUND" ++ nl) ;;;
       write output_file (rule60 ++ nl) ;;;
       for_each (enumerate questions 1)
         (fun '(i, question) =>
            write output_file (str_of_nat i ++ ". " ++ question ++ nl))).

Definition companies : list string := ["Atlassian"; "PayPal"; "Mastercard"].

Definition main : M unit := main_for companies.
End Run.
End enhanced_scraper.

(* ================================================================== *)
(** ** Concrete set orders and networks *)

(** Members in the order of their (last) insertion. *)
Definition listed_order : SetOrder :=
  {| list_of_set := nodup string_dec;
     list_of_set_perm := fun xs => Permutation_refl (nodup string_dec xs) |}.

(** The same members, the other way round. *)
Definition reverse_order : SetOrder :=
  {| list_of_set := fun xs => rev (nodup string_dec xs);
     list_of_set_perm :=
       fun xs => Permutation_sym (Permutation_rev (nodup string_dec xs)) |}.

Definition empty_body : body :=
  {| result_anchors := []; topic_titles := []; body_json := JsonItems [] |}.

(** Every request times out. *)
Definition net_down : network :=
  fun _ _ => Raised (RequestException "timed out").

(** Every request is answered with the given status and an empty body. *)
Definition net_status (code : Z) : network :=
  fun _ _ => Responded {| status_code := code; content := empty_body |}.

(** LeetCode answers every request with 503; the search engine answers
    with one result that passes every keyword filter; the repository
    search answers with no item. *)
Definition net_leetcode_503 : network :=
  fun ep _ =>
    match ep with
    | LeetCodeDiscuss =>
        Responded {| status_code := 503; content := empty_body |}
    | DuckDuckGoHtml =>
        Responded
          {| status_code := 200;
             content :=
               {| result_anchors := ["Atlassian System Design Interview";
                                     "Unrelated Topic"];
                  topic_titles := [];
                  body_json := JsonItems [] |} |}
    | GitHubRepoSearch =>
        Responded {| status_code := 200; content := empty_body |}
    end.

(* ================================================================== *)
(** ** Vocabulary of the statements *)

(** [sub] occurs in [s]. *)
Definition Substring (sub s : string) : Prop :=
  exists pre post, s = (pre ++ sub ++ post)%string.

(** The case-folded title contains one of the keywords. *)
Definition has_keyword (keywords : list string) (title : string) : Prop :=
  exists kw, In kw keywords /\ Substring kw (lower title).

(** The static fallback list of a company in a table; empty when the
    table has none for it. *)
Definition fallback (table : dict (list string)) (company : string)
  : list string :=
  match dict_get company table with
  | Some known => known
  | None => []
  end.

(** The network call for a request raises: [session.get] does (network
    error, timeout), or the repository search is answered with status 200
    and [response.json()] raises (decode error). *)
Definition call_raises (net : network) (ep : endpoint) (q : string) : Prop :=
  (exists e, net ep q = Raised e) \/
  (ep = GitHubRepoSearch /\
   exists r msg,
     net ep q = Responded r /\ status_code r = 200%Z /\
     body_json (content r) = JsonInvalid msg).

(** The network call raises for each of the requests. *)
Definition all_raise (net : network) (requests : list (endpoint * string))
  : Prop :=
  forall ep q, In (ep, q) requests -> call_raises net ep q.

(** One of the requests is answered with a status other than 200. *)
Definition some_not_200 (net : network) (requests : list (endpoint * string))
  : Prop :=
  exists ep q r,
    In (ep, q) requests /\ net ep q = Responded r /\ status_code r <> 200%Z.

(** The requests that [scrape_company_questions] sends for a company, in
    the order of the calls. *)
Definition aggregated_requests (company : string) : list (endpoint * string) :=
  [ (LeetCodeDiscuss, scrape_system_design_questions.leetcode_query company);
    (DuckDuckGoHtml, scrape_system_design_questions.alternative_query company);
    (GitHubRepoSearch, scrape_system_design_questions.github_query company) ].

(** The state with more error reports printed. *)
Definition add_log (evs : list event) (s : state) : state :=
  {| results := results s; stdout := stdout s ++ evs; files := files s |}.

(** The three lines that [scrape_questions.main] puts ahead of the
    questions of a company. *)
Definition banner (company : string) : list string :=
  [ (nl ++ rule60)%string;
    (upper company ++ " SYSTEM DESIGN QUESTIONS")%string;
    rule60 ].

(** The numbered lines of a list of questions: ["1. ..."], ["2. ..."]. *)
Definition numbered_from (i : nat) (questions : list string) : list string :=
  map (fun '(i, question) => (str_of_nat i ++ ". " ++ question)%string)
      (enumerate questions i).

Definition numbered (questions : list string) : list string :=
  numbered_from 1 questions.



(** The test of the length filter. *)
Definition length_ok (q : string) : bool :=
  (10 <? String.length q) && (String.length q <? 200).

(** What a search loop keeps of one candidate: the candidate, or
    nothing. *)
Definition keep_if (p : string -> bool) (title : string) : list string :=
  if p title then [title] else [].

(** The titles that [scrape_questions.search_questions] harvests for a
    company before it adds the fallback list, and what it prints. *)
Definition text_harvest (net : network) (company : string) : list string :=
  match net DuckDuckGoHtml (scrape_questions.search_query company) with
  | Raised _ => []
  | Responded r =>
      if (status_code r =? 200)%Z then
        flat_map
          (keep_if (fun t => any_in ["design"; "system"; "interview"] (lower t)))
          (firstn 5 (result_anchors (content r)))
      else []
  end.

Definition text_log (net : network) (company : string) : list event :=
  match net DuckDuckGoHtml (scrape_questions.search_query company) with
  | Raised e => [ErrorSearchingFor company e]
  | Responded _ => []
  end.

(** What each source search of [scrape_system_design_questions] returns
    for a company ([None] is Python's [None]), and what it prints. *)
Definition leetcode_keep (title_elem : option string) : list string :=
  match title_elem with
  | Some title =>
      keep_if (fun t => any_in ["system design"; "design"; "architecture"]
                               (lower t)) title
  | None => []
  end.

Definition leetcode_titles (net : network) (company : string)
  : option (list string) :=
  match net LeetCodeDiscuss
            (scrape_system_design_questions.leetcode_query company) with
  | Raised _ => Some []
  | Responded r =>
      if (status_code r =? 200)%Z
      then Some (flat_map leetcode_keep (firstn 5 (topic_titles (content r))))
      else None
  end.

Definition leetcode_log (net : network) (company : string) : list event :=
  match net LeetCodeDiscuss
            (scrape_system_design_questions.leetcode_query company) with
  | Raised e => [ErrorSearchingLeetCode company e]
  | Responded _ => []
  end.

Definition alternative_titles (net : network) (company : string)
  : option (list string) :=
  match net DuckDuckGoHtml
            (scrape_system_design_questions.alternative_query company) with
  | Raised _ => Some []
  | Responded r =>
      if (status_code r =? 200)%Z
      then Some (flat_map
                   (keep_if (fun t => contains "system design" (lower t)))
                   (firstn 3 (result_anchors (content r))))
      else None
  end.

Definition alternative_log (net : network) (company : string) : list event :=
  match net DuckDuckGoHtml
            (scrape_system_design_questions.alternative_query company) with
  | Raised e => [ErrorSearchingAlternative company e]
  | Responded _ => []
  end.

Definition github_keep (r : repo) : list string :=
  match repo_description r with
  | Some description =>
      if negb (String.eqb description "") &&
         contains "system design" (lower description)
      then [(repo_name r ++ ": " ++ description)%string]
      else []
  | None => []
  end.

Definition github_titles (net : network) (company : string)
  : option (list string) :=
  match net GitHubRepoSearch
            (scrape_system_design_questions.github_query company) with
  | Raised _ => Some []
  | Responded r =>
      if (status_code r =? 200)%Z
      then match body_json (content r) with
           | JsonInvalid _ => Some []
           | JsonItems items => Some (flat_map github_keep (firstn 3 items))
           end
      else None
  end.

Definition github_log (net : network) (company : string) : list event :=
  match net GitHubRepoSearch
            (scrape_system_design_questions.github_query company) with
  | Raised e => [ErrorSearchingGitHub company e]
  | Responded r =>
      if (status_code r =? 200)%Z
      then match body_json (content r) with
           | JsonInvalid msg =>
               [ErrorSearchingGitHub company (JSONDecodeError msg)]
           | JsonItems _ => []
           end
      else []
  end.

(** The exception of [all_questions.extend(None)]. *)
Definition none_not_iterable : exn :=
  TypeError "'NoneType' object is not iterable".

(** What [scrape_company_questions_with] returns or raises, and what the
    searches it reaches print. *)
Definition aggregated_value (so : SetOrder) (net : network)
    (table : dict (list string)) (company : string) : result (list string) :=
  match leetcode_titles net company with
  | None => Raise none_not_iterable
  | Some l =>
      match alternative_titles net company with
      | None => Raise none_not_iterable
      | Some a =>
          match github_titles net company with
          | None => Raise none_not_iterable
          | Some g =>
              Ok (filter length_ok
                    (list_of_set so (((l ++ a) ++ g) ++ fallback table company)))
          end
      end
  end.

Definition aggregated_log (net : network) (company : string) : list event :=
  leetcode_log net company ++
  match leetcode_titles net company with
  | None => []
  | Some _ =>
      alternative_log net company ++
      match alternative_titles net company with
      | None => []
      | Some _ => github_log net company
      end
  end.

(** The state with [results[company] = questions]. *)
Definition with_result (company : string) (questions : list string)
    (s : state) : state :=
  {| results := dict_set company questions (results s);
     stdout := stdout s;
     files := files s |}.

(** The state after one turn of the loop of
    [scrape_system_design_questions.main]. *)
Definition aggregated_step (so : SetOrder) (net : network)
    (s : state) (company : string) : state :=
  match aggregated_value so net
          scrape_system_design_questions.extract_common_questions company with
  | Ok questions =>
      with_result company questions (add_log (aggregated_log net company) s)
  | Raise e =>
      add_log (aggregated_log net company ++ [ErrorProcessing company e]) s
  end.

(** The list that [scrape_questions.search_questions] returns. *)
Definition text_questions (so : SetOrder) (net : network) (company : string)
  : list string :=
  list_of_set so
    (text_harvest net company ++
     fallback scrape_questions.known_questions company).

(** What one query of [enhanced_scraper.search_comprehensive] adds to the
    set and prints, and the list that the function returns. *)
Definition enhanced_harvest (net : network) (query : string) : list string :=
  match net DuckDuckGoHtml query with
  | Raised _ => []
  | Responded r =>
      if (status_code r =? 200)%Z then
        flat_map
          (keep_if (fun t => any_in ["design"; "system"; "interview";
                                     "experience"] (lower t)))
          (firstn 3 (result_anchors (content r)))
      else []
  end.

Definition enhanced_log (net : network) (query : string) : list event :=
  match net DuckDuckGoHtml query with
  | Raised e => [ErrorWithQuery query e]
  | Responded _ => []
  end.

Definition enhanced_questions (so : SetOrder) (net : network)
    (company : string) : list string :=
  list_of_set so
    (flat_map (enhanced_harvest net) (enhanced_scraper.search_queries company)).

(** LeetCode answers 503 to the request for Atlassian; every other
    request times out. *)
Definition net_atlassian_503 : network :=
  fun ep q =>
    match ep with
    | LeetCodeDiscuss =>
        if String.eqb q "Atlassian system design interview"
        then Responded {| status_code := 503; content := empty_body |}
        else Raised (RequestException "timed out")
    | _ => Raised (RequestException "timed out")
    end.

(** The last character of a string (the zero character for the empty
    string), used to tell queries apart. *)
Fixpoint last_char (s : string) : ascii :=
  match s with
  | EmptyString => Ascii.zero
  | String c EmptyString => c
  | String _ s' => last_char s'
  end.

(** Two networks answer the given requests alike. *)
Definition agree_on (net net' : network) (requests : list (endpoint * string))
  : Prop :=
  forall ep q, In (ep, q) requests -> net ep q = net' ep q.

(* ================================================================== *)
(** ** Strings *)

Lemma string_app_assoc (a b c : string) :
  ((a ++ b) ++ c = a ++ (b ++ c))%string.
Proof. induction a as [|x a IH]; simpl; [reflexivity | now rewrite IH]. Qed.


Lemma lower_app (a b : string) :
  lower (a ++ b) = (lower a ++ lower b)%string.
Proof. induction a as [|x a IH]; simpl; [reflexivity | now rewrite IH]. Qed.

Lemma prefix_spec (sub s : string) :
  String.prefix sub s = true <-> exists post, s = (sub ++ post)%string.
Proof.
  revert s. induction sub as [|c sub IH]; intros s.
  - split; [intros _; exists s; reflexivity | intros _; now destruct s].
  - destruct s as [|d s]; simpl.
    + split; [discriminate | intros [post H]; discriminate].
    + destruct (ascii_dec c d) as [->|Hne].
      * rewrite IH. split; intros [post H]; exists post.
        -- now rewrite H.
        -- now injection H.
      * split; [discriminate | intros [post H]; injection H as Hc _; now elim Hne].
Qed.

Lemma contains_spec (sub s : string) :
  contains sub s = true <-> Substring sub s.
Proof.
  induction s as [|d s IH].
  - change (contains sub "") with (String.prefix sub "" || false).
    rewrite orb_false_r, prefix_spec. split.
    + intros [post H]. exists "", post. exact H.
    + intros [pre [post H]]. destruct pre; simpl in H.
      * now exists post.
      * discriminate.
  - change (contains sub (String d s))
      with (String.prefix sub (String d s) || contains sub s).
    rewrite orb_true_iff, prefix_spec, IH. split.
    + intros [[post H] | [pre [post H]]].
      * exists "", post. exact H.
      * exists (String d pre), post. simpl. now rewrite H.
    + intros [pre [post H]]. destruct pre as [|x pre]; simpl in H.
      * left. now exists post.
      * right. injection H as _ H. now exists pre, post.
Qed.

Lemma any_in_spec (words : list string) (text : string) :
  any_in words text = true <->
  exists kw, In kw words /\ Substring kw text.
Proof.
  unfold any_in. rewrite existsb_exists.
  split; intros [kw [Hin H]]; exists kw; split; auto;
    now apply contains_spec.
Qed.

Lemma Substring_app_r (sub pre s : string) :
  Substring sub s -> Substring sub (pre ++ s).
Proof.
  intros [a [b H]]. exists (pre ++ a)%string, b.
  now rewrite H, string_app_assoc.
Qed.

(* ================================================================== *)
(** ** Lists, sets, dicts *)

Lemma fold_left_append {A : Type}
    (step : list string -> A -> list string) (g : A -> list string)
    (xs : list A) (acc : list string) :
  (forall acc x, step acc x = acc ++ g x) ->
  fold_left step xs acc = acc ++ flat_map g xs.
Proof.
  intros Hstep. revert acc.
  induction xs as [|x xs IH]; intros acc; simpl.
  - now rewrite app_nil_r.
  - now rewrite IH, Hstep, <- app_assoc.
Qed.

Lemma In_flat_map_keep_if (p : string -> bool) (xs : list string) (t : string) :
  In t (flat_map (keep_if p) xs) <-> In t xs /\ p t = true.
Proof.
  rewrite in_flat_map. unfold keep_if. split.
  - intros [x [Hx Ht]]. destruct (p x) eqn:E; simpl in Ht.
    + destruct Ht as [<-|[]]. now split.
    + contradiction.
  - intros [Hx Hp]. exists t. rewrite Hp. split; [exact Hx | now left].
Qed.

Lemma list_of_set_In (so : SetOrder) (xs : list string) (t : string) :
  In t (list_of_set so xs) <-> In t xs.
Proof.
  rewrite <- (nodup_In string_dec xs t).
  split; apply Permutation_in;
    [ | apply Permutation_sym ]; apply list_of_set_perm.
Qed.

Lemma list_of_set_NoDup (so : SetOrder) (xs : list string) :
  NoDup (list_of_set so xs).
Proof.
  apply (Permutation_NoDup (Permutation_sym (list_of_set_perm so xs))).
  apply NoDup_nodup.
Qed.

Lemma list_of_set_nil (so : SetOrder) : list_of_set so [] = [].
Proof.
  apply Permutation_nil, Permutation_sym. exact (list_of_set_perm so []).
Qed.

Lemma dict_get_In {V : Type} (k : string) (v : V) (d : dict V) :
  dict_get k d = Some v -> In (k, v) d.
Proof.
  induction d as [|[k' v'] d IH]; simpl; [discriminate|].
  destruct (String.eqb_spec k k') as [->|Hne].
  - intros [= ->]. now left.
  - intros H. right. now apply IH.
Qed.

Lemma dict_get_set_same {V : Type} (k : string) (v : V) (d : dict V) :
  dict_get k (dict_set k v d) = Some v.
Proof.
  induction d as [|[k' v'] d IH]; simpl.
  - now rewrite String.eqb_refl.
  - destruct (String.eqb_spec k k') as [->|Hne]; simpl.
    + now rewrite String.eqb_refl.
    + destruct (String.eqb_spec k k'); [contradiction | exact IH].
Qed.

Lemma dict_get_set_other {V : Type} (k k' : string) (v : V) (d : dict V) :
  k <> k' -> dict_get k (dict_set k' v d) = dict_get k d.
Proof.
  intros Hne. induction d as [|[k2 v2] d IH]; simpl.
  - destruct (String.eqb_spec k k'); [contradiction | reflexivity].
  - destruct (String.eqb_spec k' k2) as [->|Hne2]; simpl.
    + destruct (String.eqb_spec k k2); [contradiction | reflexivity].
    + destruct (String.eqb_spec k k2); [reflexivity | exact IH].
Qed.

Lemma dict_get_None_keys {V : Type} (k : string) (d : dict V) :
  dict_get k d = None <-> ~ In k (dict_keys d).
Proof.
  unfold dict_keys. induction d as [|[k' v'] d IH]; simpl.
  - split; [intros _ [] | reflexivity].
  - destruct (String.eqb_spec k k') as [->|Hne].
    + split; [discriminate | intros H; elim H; now left].
    + rewrite IH. split.
      * intros H [Heq|Hin]; [now elim Hne | now apply H].
      * intros H Hin. apply H. now right.
Qed.

(* ================================================================== *)
(** ** Runs *)

Lemma add_log_nil (s : state) : add_log [] s = s.
Proof. destruct s. unfold add_log. simpl. now rewrite app_nil_r. Qed.

Lemma add_log_app (evs evs' : list event) (s : state) :
  add_log evs' (add_log evs s) = add_log (evs ++ evs') s.
Proof. unfold add_log. simpl. now rewrite app_assoc. Qed.

Lemma bind_ok {A B : Type} (m : M A) (k : A -> M B) (s s' : state) (a : A) :
  m s = (Ok a, s') -> bind m k s = k a s'.
Proof. intros H. unfold bind. now rewrite H. Qed.


(** A loop whose turns all return is a fold over the states. *)
Lemma for_each_fold {A : Type} (body : A -> M unit)
    (step : state -> A -> state) (xs : list A) (s : state) :
  (forall x s0, body x s0 = (Ok tt, step s0 x)) ->
  for_each xs body s = (Ok tt, fold_left step xs s).
Proof.
  intros Hbody. revert s.
  induction xs as [|x xs IH]; intros s; cbn [for_each fold_left].
  - reflexivity.
  - unfold bind. rewrite Hbody. apply IH.
Qed.

(* ================================================================== *)
(** ** scrape_questions.py: what a search returns *)

Lemma search_questions_run (so : SetOrder) (net : network)
    (company : string) (s : state) :
  scrape_questions.search_questions so net company s =
  (Ok (list_of_set so
         (text_harvest net company ++
          fallback scrape_questions.known_questions company)),
   add_log (text_log net company) s).
Proof.
  unfold scrape_questions.search_questions, text_harvest, text_log, fallback,
    bind, try_except, session_get, ret, print.
  destruct (net DuckDuckGoHtml (scrape_questions.search_query company))
    as [e|r].
  - destruct (dict_get company scrape_questions.known_questions); reflexivity.
  - rewrite add_log_nil.
    destruct (status_code r =? 200)%Z.
    + rewrite (fold_left_append _
        (keep_if (fun t => any_in ["design"; "system"; "interview"] (lower t)))).
      * destruct (dict_get company scrape_questions.known_questions);
          cbn [app]; rewrite ?app_nil_r; reflexivity.
      * intros acc x. unfold keep_if.
        destruct (any_in _ _); [reflexivity | now rewrite app_nil_r].
    + destruct (dict_get company scrape_questions.known_questions);
        reflexivity.
Qed.

(* ================================================================== *)
(** ** scrape_system_design_questions.py: what the searches return *)

Lemma search_leetcode_discuss_run (net : network) (company : string)
    (s : state) :
  scrape_system_design_questions.search_leetcode_discuss net company s =
  (Ok (leetcode_titles net company), add_log (leetcode_log net company) s).
Proof.
  unfold scrape_system_design_questions.search_leetcode_discuss,
    leetcode_titles, leetcode_log, bind, try_except, session_get, ret, print.
  destruct (net LeetCodeDiscuss _) as [e|r]; [reflexivity|].
  rewrite add_log_nil.
  destruct (status_code r =? 200)%Z; [|reflexivity].
  rewrite (fold_left_append _ leetcode_keep); [reflexivity|].
  intros acc [title|]; unfold leetcode_keep, keep_if.
  - destruct (any_in _ _); [reflexivity | now rewrite app_nil_r].
  - now rewrite app_nil_r.
Qed.

Lemma search_glassdoor_alternative_run (net : network) (company : string)
    (s : state) :
  scrape_system_design_questions.search_glassdoor_alternative net company s =
  (Ok (alternative_titles net company),
   add_log (alternative_log net company) s).
Proof.
  unfold scrape_system_design_questions.search_glassdoor_alternative,
    alternative_titles, alternative_log,
    bind, try_except, session_get, ret, print.
  destruct (net DuckDuckGoHtml _) as [e|r]; [reflexivity|].
  rewrite add_log_nil.
  destruct (status_code r =? 200)%Z; [|reflexivity].
  rewrite (fold_left_append _
             (keep_if (fun t => contains "system design" (lower t))));
    [reflexivity|].
  intros acc title. unfold keep_if.
  destruct (contains _ _); [reflexivity | now rewrite app_nil_r].
Qed.

Lemma search_github_repos_run (net : network) (company : string)
    (s : state) :
  scrape_system_design_questions.search_github_repos net company s =
  (Ok (github_titles net company), add_log (github_log net company) s).
Proof.
  unfold scrape_system_design_questions.search_github_repos,
    github_titles, github_log, response_items,
    bind, try_except, session_get, ret, raise, print.
  destruct (net GitHubRepoSearch _) as [e|r]; [reflexivity|].
  destruct (status_code r =? 200)%Z; [|now rewrite add_log_nil].
  destruct (body_json (content r)) as [msg|items]; [reflexivity|].
  rewrite add_log_nil.
  rewrite (fold_left_append _ github_keep); [reflexivity|].
  intros acc x. unfold github_keep.
  destruct (repo_description x) as [d|]; [|now rewrite app_nil_r].
  destruct (negb (String.eqb d "") && contains "system design" (lower d));
    [reflexivity | now rewrite app_nil_r].
Qed.

Lemma scrape_company_questions_with_run (so : SetOrder) (net : network)
    (table : dict (list string)) (company : string) (s : state) :
  scrape_system_design_questions.scrape_company_questions_with
    so net table company s =
  match aggregated_value so net table company with
  | Ok questions =>
      (Ok questions,
       with_result company questions (add_log (aggregated_log net company) s))
  | Raise e => (Raise e, add_log (aggregated_log net company) s)
  end.
Proof.
  unfold scrape_system_design_questions.scrape_company_questions_with,
    aggregated_value, aggregated_log.
  unfold bind at 1. rewrite search_leetcode_discuss_run.
  destruct (leetcode_titles net company) as [l|]; simpl extend.
  2:{ unfold bind, raise. now rewrite app_nil_r. }
  unfold bind at 1. unfold ret at 1.
  unfold bind at 1. rewrite search_glassdoor_alternative_run.
  destruct (alternative_titles net company) as [a|]; simpl extend.
  2:{ unfold bind, raise. now rewrite add_log_app, app_nil_r. }
  unfold bind at 1. unfold ret at 1.
  unfold bind at 1. rewrite search_github_repos_run.
  destruct (github_titles net company) as [g|]; simpl extend.
  2:{ unfold bind, raise. now rewrite !add_log_app. }
  unfold bind, ret, set_result, with_result, fallback.
  rewrite !add_log_app.
  destruct (dict_get company table); cbn [app]; rewrite ?app_nil_r;
    reflexivity.
Qed.

(* ================================================================== *)
(** ** scrape_system_design_questions.py: the loop of [main] *)

Lemma aggregated_turn_run (so : SetOrder) (net : network)
    (company : string) (s : state) :
  try_except
    (scrape_system_design_questions.scrape_company_questions so net company
       ;;; ret tt)
    (fun e => print (ErrorProcessing company e)) s =
  (Ok tt, aggregated_step so net s company).
Proof.
  unfold try_except, bind,
    scrape_system_design_questions.scrape_company_questions, aggregated_step.
  rewrite scrape_company_questions_with_run.
  destruct (aggregated_value so net _ company) as [qs|e].
  - reflexivity.
  - unfold print. now rewrite <- add_log_app.
Qed.

Lemma aggregated_loop_run (so : SetOrder) (net : network)
    (companies : list string) (s : state) :
  for_each companies
    (fun company =>
       try_except
         (scrape_system_design_questions.scrape_company_questions
            so net company ;;; ret tt)
         (fun e => print (ErrorProcessing company e))) s =
  (Ok tt, fold_left (aggregated_step so net) companies s).
Proof.
  apply for_each_fold. intros c s0. apply aggregated_turn_run.
Qed.

Lemma main_for_run (so : SetOrder) (net : network)
    (companies : list string) (s : state) :
  scrape_system_design_questions.main_for so net companies s =
  let s' :=
    fold_left (aggregated_step so net) companies
      {| results := []; stdout := stdout s; files := files s |} in
  (Ok tt,
   {| results := results s';
      stdout := stdout s';
      files := dict_set scrape_system_design_questions.output_file
                 (Json (results s')) (files s') |}).
Proof.
  unfold scrape_system_design_questions.main_for.
  erewrite bind_ok by reflexivity.
  erewrite bind_ok by apply aggregated_loop_run.
  reflexivity.
Qed.

Section AggregatedLoop.
Variable so : SetOrder.
Variable net : network.

Let table := scrape_system_design_questions.extract_common_questions.
Let step := aggregated_step so net.

Lemma step_results_same (s : state) (c company : string) :
  c <> company ->
  dict_get c (results (step s company)) = dict_get c (results s).
Proof.
  intros Hne. unfold step, aggregated_step.
  destruct (aggregated_value so net _ company) as [qs|e]; simpl.
  - now apply dict_get_set_other.
  - reflexivity.
Qed.

Lemma step_results_raise (s : state) (c : string) (e : exn) :
  aggregated_value so net table c = Raise e ->
  dict_get c (results (step s c)) = dict_get c (results s).
Proof.
  intros H. unfold step, aggregated_step. fold table. now rewrite H.
Qed.

Lemma step_results_ok (s : state) (c : string) (qs : list string) :
  aggregated_value so net table c = Ok qs ->
  dict_get c (results (step s c)) = Some qs.
Proof.
  intros H. unfold step, aggregated_step. fold table. rewrite H. simpl.
  apply dict_get_set_same.
Qed.

Lemma step_stdout_keeps (s : state) (company : string) (ev : event) :
  In ev (stdout s) -> In ev (stdout (step s company)).
Proof.
  intros H. unfold step, aggregated_step.
  destruct (aggregated_value so net _ company) as [qs|e]; simpl;
    apply in_or_app; now left.
Qed.

Lemma step_files (s : state) (company : string) :
  files (step s company) = files s.
Proof.
  unfold step, aggregated_step.
  destruct (aggregated_value so net _ company); reflexivity.
Qed.

Lemma loop_stdout_keeps (cs : list string) (s : state) (ev : event) :
  In ev (stdout s) -> In ev (stdout (fold_left step cs s)).
Proof.
  revert s. induction cs as [|c cs IH]; intros s H; simpl; [exact H|].
  apply IH. now apply step_stdout_keeps.
Qed.

Lemma loop_files (cs : list string) (s : state) :
  files (fold_left step cs s) = files s.
Proof.
  revert s. induction cs as [|c cs IH]; intros s; simpl; [reflexivity|].
  now rewrite IH, step_files.
Qed.

(** A company whose scrape raises keeps the entry it had before the
    loop. *)
Lemma loop_results_raise (cs : list string) (s : state) (c : string)
    (e : exn) :
  aggregated_value so net table c = Raise e ->
  dict_get c (results (fold_left step cs s)) = dict_get c (results s).
Proof.
  intros H. revert s. induction cs as [|c' cs IH]; intros s; simpl;
    [reflexivity|].
  rewrite IH. destruct (string_dec c c') as [<-|Hne].
  - now apply step_results_raise with (e := e).
  - now apply step_results_same.
Qed.

(** A company of the list whose scrape returns has what it returned. *)
Lemma loop_results_ok (cs : list string) (s : state) (c : string)
    (qs : list string) :
  In c cs ->
  aggregated_value so net table c = Ok qs ->
  dict_get c (results (fold_left step cs s)) = Some qs.
Proof.
  intros Hin H. revert s Hin.
  induction cs as [|c' cs IH]; intros s Hin; simpl; [destruct Hin|].
  destruct (in_dec string_dec c cs) as [Hcs|Hcs].
  - now apply IH.
  - destruct Hin as [->|Hin]; [|contradiction].
    clear IH. revert s. 
    assert (Hkeep : forall s0, dict_get c (results (fold_left step cs s0))
                               = dict_get c (results s0)).
    { induction cs as [|d cs IHcs]; intros s0; simpl; [reflexivity|].
      rewrite IHcs.
      - apply step_results_same. intros ->. apply Hcs. now left.
      - intros Hd. apply Hcs. now right. }
    intros s. rewrite Hkeep. now apply step_results_ok.
Qed.

(** An entry after the loop was there before, or is what the scrape of
    a company of the list returned. *)
Lemma loop_results_inv (cs : list string) (s : state) (c : string)
    (qs : list string) :
  dict_get c (results (fold_left step cs s)) = Some qs ->
  dict_get c (results s) = Some qs \/
  (In c cs /\ aggregated_value so net table c = Ok qs).
Proof.
  revert s. induction cs as [|c' cs IH]; intros s H; simpl in H;
    [now left|].
  destruct (IH _ H) as [Hs|[Hin Hv]].
  - destruct (string_dec c c') as [<-|Hne].
    + destruct (aggregated_value so net table c) as [qs'|e] eqn:E.
      * rewrite (step_results_ok s c qs' E) in Hs.
        injection Hs as ->. right. split; [now left | reflexivity].
      * rewrite (step_results_raise s c e E) in Hs. now left.
    + rewrite step_results_same in Hs by assumption. now left.
  - right. split; [now right | exact Hv].
Qed.

(** A company of the list whose scrape raises has its error report
    printed. *)
Lemma loop_stdout_raise (cs : list string) (s : state) (c : string)
    (e : exn) :
  In c cs ->
  aggregated_value so net table c = Raise e ->
  In (ErrorProcessing c e) (stdout (fold_left step cs s)).
Proof.
  intros Hin H. revert s.
  induction cs as [|c' cs IH]; intros s; simpl; [destruct Hin|].
  destruct Hin as [->|Hin].
  - apply loop_stdout_keeps. unfold step, aggregated_step. fold table.
    rewrite H. simpl. rewrite app_assoc. apply in_or_app. right. now left.
  - now apply IH.
Qed.
End AggregatedLoop.

(* ================================================================== *)
(** ** enhanced_scraper.py: what a search returns *)

Lemma for_fold_append {A : Type}
    (body : list string -> A -> M (list string))
    (g : A -> list string) (l : A -> list event)
    (xs : list A) (acc : list string) (s : state) :
  (forall acc x s0, body acc x s0 = (Ok (acc ++ g x), add_log (l x) s0)) ->
  for_fold xs acc body s =
  (Ok (acc ++ flat_map g xs), add_log (flat_map l xs) s).
Proof.
  intros Hbody. revert acc s.
  induction xs as [|x xs IH]; intros acc s; cbn [for_fold flat_map].
  - unfold ret. now rewrite app_nil_r, add_log_nil.
  - erewrite bind_ok by apply Hbody.
    now rewrite IH, add_log_app, <- app_assoc.
Qed.

Lemma search_comprehensive_run (so : SetOrder) (net : network)
    (company : string) (s : state) :
  enhanced_scraper.search_comprehensive so net company s =
  (Ok (enhanced_questions so net company),
   add_log (flat_map (enhanced_log net)
              (enhanced_scraper.search_queries company)) s).
Proof.
  unfold enhanced_scraper.search_comprehensive, enhanced_questions.
  erewrite bind_ok.
  2:{ apply (for_fold_append _ (enhanced_harvest net) (enhanced_log net)).
      intros acc q s0.
      unfold enhanced_harvest, enhanced_log, try_except, bind, session_get,
        ret, print.
      destruct (net DuckDuckGoHtml q) as [e|r].
      - now rewrite app_nil_r.
      - rewrite add_log_nil. destruct (status_code r =? 200)%Z.
        + rewrite (fold_left_append _
            (keep_if (fun t => any_in ["design"; "system"; "interview";
                                       "experience"] (lower t))));
            [reflexivity|].
          intros acc0 x. unfold keep_if, set_add.
          destruct (any_in _ _); [reflexivity | now rewrite app_nil_r].
        + now rewrite app_nil_r. }
  reflexivity.
Qed.

(* ================================================================== *)
(** ** The text files *)

Lemma numbered_lines_fold (questions : list string) (i : nat)
    (all_content : list string) :
  fold_left
    (fun all_content '(i, question) =>
       all_content ++ [(str_of_nat i ++ ". " ++ question)%string])
    (enumerate questions i) all_content =
  all_content ++ numbered_from i questions.
Proof.
  unfold numbered_from. revert i all_content.
  induction questions as [|q qs IH]; intros i acc; simpl.
  - now rewrite app_nil_r.
  - now rewrite IH, <- app_assoc.
Qed.

Lemma numbered_from_length (i : nat) (questions : list string) :
  List.length (numbered_from i questions) = List.length questions.
Proof.
  unfold numbered_from. rewrite length_map. revert i.
  induction questions as [|q qs IH]; intros i; simpl; [reflexivity|].
  now rewrite IH.
Qed.

Lemma open_write_file (name text : string) (s : state) :
  exists s',
    (open_w name ;;; write name text) s = (Ok tt, s') /\
    dict_get name (files s') = Some (Text text) /\
    results s' = results s /\ stdout s' = stdout s.
Proof.
  eexists. split; [|split; [|split]].
  - unfold bind, open_w, write. cbn [files results stdout].
    rewrite dict_get_set_same. reflexivity.
  - cbn [files]. apply dict_get_set_same.
  - reflexivity.
  - reflexivity.
Qed.


Lemma scrape_questions_main_for_run (so : SetOrder) (net : network)
    (companies : list string) (s : state) :
  exists s',
    scrape_questions.main_for so net companies s = (Ok tt, s') /\
    dict_get scrape_questions.output_file (files s') =
      Some (Text (join nl
                    (flat_map
                       (fun c => banner c ++ numbered (text_questions so net c))
                       companies))).
Proof.
  unfold scrape_questions.main_for.
  erewrite bind_ok.
  2:{ apply (for_fold_append _
               (fun c => banner c ++ numbered (text_questions so net c))
               (text_log net)).
      intros acc c s0.
      erewrite bind_ok by apply search_questions_run.
      unfold ret. rewrite numbered_lines_fold. unfold banner, numbered.
      fold (text_questions so net c).
      now rewrite <- !app_assoc. }
  cbn [app].
  destruct (open_write_file scrape_questions.output_file
              (join nl (flat_map
                          (fun c => banner c ++ numbered (text_questions so net c))
                          companies))
              (add_log (flat_map (text_log net) companies) s))
    as [s' [Hrun [Hfile _]]].
  exists s'. split; assumption.
Qed.






(* ================================================================== *)
(** ** What the returned lists hold *)

Lemma value_of_search_questions (so : SetOrder) (net : network)
    (company : string) (s : state) :
  value_of (scrape_questions.search_questions so net company) s =
  Ok (text_questions so net company).
Proof. unfold value_of. now rewrite search_questions_run. Qed.

Lemma value_of_search_comprehensive (so : SetOrder) (net : network)
    (company : string) (s : state) :
  value_of (enhanced_scraper.search_comprehensive so net company) s =
  Ok (enhanced_questions so net company).
Proof. unfold value_of. now rewrite search_comprehensive_run. Qed.

Lemma value_of_scrape_with (so : SetOrder) (net : network)
    (table : dict (list string)) (company : string) (s : state) :
  value_of
    (scrape_system_design_questions.scrape_company_questions_with
       so net table company) s =
  aggregated_value so net table company.
Proof.
  unfold value_of. rewrite scrape_company_questions_with_run.
  now destruct (aggregated_value so net table company).
Qed.

Lemma keep_keyword (keywords : list string) (title : string) :
  any_in keywords (lower title) = true -> has_keyword keywords title.
Proof. intros H. now apply any_in_spec. Qed.

Lemma text_harvest_keyword (net : network) (company t : string) :
  In t (text_harvest net company) ->
  has_keyword ["design"; "system"; "interview"] t.
Proof.
  unfold text_harvest.
  destruct (net DuckDuckGoHtml _) as [e|r]; [intros []|].
  destruct (status_code r =? 200)%Z; [|intros []].
  intros H. apply In_flat_map_keep_if in H. now apply keep_keyword.
Qed.

Lemma enhanced_harvest_keyword (net : network) (query t : string) :
  In t (enhanced_harvest net query) ->
  has_keyword ["design"; "system"; "interview"; "experience"] t.
Proof.
  unfold enhanced_harvest.
  destruct (net DuckDuckGoHtml _) as [e|r]; [intros []|].
  destruct (status_code r =? 200)%Z; [|intros []].
  intros H. apply In_flat_map_keep_if in H. now apply keep_keyword.
Qed.

Lemma leetcode_titles_keyword (net : network) (company t : string)
    (qs : list string) :
  leetcode_titles net company = Some qs -> In t qs ->
  has_keyword ["system design"; "design"; "architecture"] t.
Proof.
  unfold leetcode_titles.
  destruct (net LeetCodeDiscuss _) as [e|r]; [now intros [= <-]|].
  destruct (status_code r =? 200)%Z; [|discriminate].
  intros [= <-] H. apply in_flat_map in H. destruct H as [[title|] [_ H]].
  - unfold leetcode_keep, keep_if in H.
    destruct (any_in _ (lower title)) eqn:E; [|destruct H].
    destruct H as [<-|[]]. now apply keep_keyword.
  - destruct H.
Qed.

Lemma alternative_titles_keyword (net : network) (company t : string)
    (qs : list string) :
  alternative_titles net company = Some qs -> In t qs ->
  has_keyword ["system design"] t.
Proof.
  unfold alternative_titles.
  destruct (net DuckDuckGoHtml _) as [e|r]; [now intros [= <-]|].
  destruct (status_code r =? 200)%Z; [|discriminate].
  intros [= <-] H. apply In_flat_map_keep_if in H. destruct H as [_ H].
  exists "system design". split; [now left | now apply contains_spec].
Qed.

Lemma github_titles_keyword (net : network) (company t : string)
    (qs : list string) :
  github_titles net company = Some qs -> In t qs ->
  has_keyword ["system design"] t.
Proof.
  unfold github_titles.
  destruct (net GitHubRepoSearch _) as [e|r]; [now intros [= <-]|].
  destruct (status_code r =? 200)%Z; [|discriminate].
  destruct (body_json (content r)) as [msg|items]; [now intros [= <-]|].
  intros [= <-] H. apply in_flat_map in H. destruct H as [x [_ H]].
  unfold github_keep in H.
  destruct (repo_description x) as [d|]; [|destruct H].
  destruct (negb (String.eqb d "") && contains "system design" (lower d))
    eqn:E; [|destruct H].
  destruct H as [<-|[]].
  apply andb_true_iff in E. destruct E as [_ E].
  exists "system design". split; [now left|].
  rewrite !lower_app. do 2 apply Substring_app_r. now apply contains_spec.
Qed.

Lemma length_ok_spec (q : string) :
  length_ok q = true <-> 10 < String.length q < 200.
Proof.
  unfold length_ok. rewrite andb_true_iff, !Nat.ltb_lt. reflexivity.
Qed.

(** A list that the aggregated scrape returns holds, within the length
    bounds, what the three searches returned and the fallback list. *)
Lemma aggregated_value_In (so : SetOrder) (net : network)
    (table : dict (list string)) (company : string) (qs : list string)
    (t : string) :
  aggregated_value so net table company = Ok qs ->
  (In t qs <->
   length_ok t = true /\
   ((exists l, leetcode_titles net company = Some l /\ In t l) \/
    (exists a, alternative_titles net company = Some a /\ In t a) \/
    (exists g, github_titles net company = Some g /\ In t g) \/
    In t (fallback table company))).
Proof.
  unfold aggregated_value.
  destruct (leetcode_titles net company) as [l|]; [|discriminate].
  destruct (alternative_titles net company) as [a|]; [|discriminate].
  destruct (github_titles net company) as [g|]; [|discriminate].
  intros [= <-]. rewrite filter_In, list_of_set_In, !in_app_iff.
  split.
  - intros [[[[H|H]|H]|H] Hlen]; (split; [exact Hlen|]).
    + left. now exists l.
    + right; left. now exists a.
    + right; right; left. now exists g.
    + now right; right; right.
  - intros [Hlen [[l' [[= <-] H]]|[[a' [[= <-] H]]|[[g' [[= <-] H]]|H]]]];
      (split; [|exact Hlen]); tauto.
Qed.

Lemma aggregated_value_NoDup (so : SetOrder) (net : network)
    (table : dict (list string)) (company : string) (qs : list string) :
  aggregated_value so net table company = Ok qs -> NoDup qs.
Proof.
  unfold aggregated_value.
  destruct (leetcode_titles net company) as [l|]; [|discriminate].
  destruct (alternative_titles net company) as [a|]; [|discriminate].
  destruct (github_titles net company) as [g|]; [|discriminate].
  intros [= <-]. apply NoDup_filter, list_of_set_NoDup.
Qed.

(** The state after [scrape_system_design_questions.main]. *)
Lemma aggregated_main_state (so : SetOrder) (net : network) (s : state) :
  let final := state_after (scrape_system_design_questions.main so net) s in
  let looped :=
    fold_left (aggregated_step so net)
      scrape_system_design_questions.companies
      {| results := []; stdout := stdout s; files := files s |} in
  value_of (scrape_system_design_questions.main so net) s = Ok tt /\
  results final = results looped /\
  stdout final = stdout looped /\
  dict_get scrape_system_design_questions.output_file (files final) =
    Some (Json (results final)).
Proof.
  unfold state_after, value_of, scrape_system_design_questions.main.
  rewrite main_for_run. cbn [fst snd results stdout files].
  repeat split. apply dict_get_set_same.
Qed.

(** Every member of the JSON object that [main] writes is a company of
    the list with the list that its scrape returned. *)
Lemma aggregated_output_member (so : SetOrder) (net : network) (s : state)
    (members : dict (list string)) (company : string) (qs : list string) :
  dict_get scrape_system_design_questions.output_file
    (files (state_after (scrape_system_design_questions.main so net) s)) =
    Some (Json members) ->
  dict_get company members = Some qs ->
  In company scrape_system_design_questions.companies /\
  aggregated_value so net
    scrape_system_design_questions.extract_common_questions company = Ok qs.
Proof.
  destruct (aggregated_main_state so net s) as [_ [Hres [_ Hfile]]].
  rewrite Hfile. intros [= <-]. rewrite Hres. intros H.
  apply loop_results_inv in H. destruct H as [H|H]; [discriminate H|exact H].
Qed.

(* ================================================================== *)
(** ** Keyword filter, length filter, deduplication *)

(** C5. Every harvested title that a search keeps has, once lower-cased,
    one of the keywords of the search that kept it: the three keywords of
    [scrape_questions], the four of [enhanced_scraper], the three of the
    LeetCode search and the single ["system design"] of the two other
    searches of [scrape_system_design_questions].  In the final lists this
    holds for every title that is not a fallback entry. *)
Theorem C5_kept_titles_contain_a_keyword (so : SetOrder) (net : network)
    (company : string) (s : state) (t : string) :
  (forall qs,
      value_of (scrape_questions.search_questions so net company) s = Ok qs ->
      In t qs ->
      ~ In t (fallback scrape_questions.known_questions company) ->
      has_keyword ["design"; "system"; "interview"] t) /\
  (forall qs,
      value_of (enhanced_scraper.search_comprehensive so net company) s = Ok qs ->
      In t qs ->
      has_keyword ["design"; "system"; "interview"; "experience"] t) /\
  (forall qs,
      value_of (scrape_system_design_questions.search_leetcode_discuss
                  net company) s = Ok (Some qs) ->
      In t qs ->
      has_keyword ["system design"; "design"; "architecture"] t) /\
  (forall qs,
      value_of (scrape_system_design_questions.search_glassdoor_alternative
                  net company) s = Ok (Some qs) ->
      In t qs ->
      has_keyword ["system design"] t) /\
  (forall qs,
      value_of (scrape_system_design_questions.search_github_repos
                  net company) s = Ok (Some qs) ->
      In t qs ->
      has_keyword ["system design"] t) /\
  (forall qs,
      value_of (scrape_system_design_questions.scrape_company_questions
                  so net company) s = Ok qs ->
      In t qs ->
      ~ In t (fallback scrape_system_design_questions.extract_common_questions
                company) ->
      has_keyword ["system design"; "design"; "architecture"] t \/
      has_keyword ["system design"] t).
Proof.
  repeat split.
  - intros qs. rewrite value_of_search_questions. intros [= <-] Hin Hfb.
    unfold text_questions in Hin. rewrite list_of_set_In, in_app_iff in Hin.
    destruct Hin as [Hin|Hin]; [|contradiction].
    now apply text_harvest_keyword with (net := net) (company := company).
  - intros qs. rewrite value_of_search_comprehensive. intros [= <-] Hin.
    unfold enhanced_questions in Hin.
    rewrite list_of_set_In, in_flat_map in Hin.
    destruct Hin as [q [_ Hin]].
    now apply enhanced_harvest_keyword with (net := net) (query := q).
  - intros qs. unfold value_of. rewrite search_leetcode_discuss_run.
    cbn [fst]. intros [= H] Hin.
    exact (leetcode_titles_keyword net company t qs H Hin).
  - intros qs. unfold value_of. rewrite search_glassdoor_alternative_run.
    cbn [fst]. intros [= H] Hin.
    exact (alternative_titles_keyword net company t qs H Hin).
  - intros qs. unfold value_of. rewrite search_github_repos_run.
    cbn [fst]. intros [= H] Hin.
    exact (github_titles_keyword net company t qs H Hin).
  - intros qs. unfold scrape_system_design_questions.scrape_company_questions.
    rewrite value_of_scrape_with. intros Hv Hin Hfb.
    apply (aggregated_value_In so net _ company qs t Hv) in Hin.
    destruct Hin as [_ [[l [Hl Hin]]|[[a [Ha Hin]]|[[g [Hg Hin]]|Hin]]]].
    + left. now apply leetcode_titles_keyword with (1 := Hl).
    + right. now apply alternative_titles_keyword with (1 := Ha).
    + right. now apply github_titles_keyword with (1 := Hg).
    + contradiction.
Qed.

(** C5 at a run where the search engine answers with two results: the
    kept title ["Atlassian System Design Interview"] has a keyword. *)
Lemma C5_kept_titles_contain_a_keyword_witness :
  has_keyword ["design"; "system"; "interview"]
    "Atlassian System Design Interview".
Proof.
  apply (proj1 (C5_kept_titles_contain_a_keyword listed_order net_leetcode_503
                  "Atlassian" initial_state
                  "Atlassian System Design Interview")
           (text_questions listed_order net_leetcode_503 "Atlassian")).
  - vm_compute. reflexivity.
  - vm_compute. left. reflexivity.
  - vm_compute. intros H. repeat (destruct H as [H|H]; [discriminate H|]).
    exact H.
Defined.

(** C6. In the JSON-output variant every title of the list that
    [scrape_company_questions] returns for a company, and so every title
    of every member of the JSON object that [main] writes, is longer than
    10 and shorter than 200 characters. *)
Theorem C6_kept_titles_are_length_bounded (so : SetOrder) (net : network)
    (company : string) (s : state) (t : string) :
  (forall qs,
      value_of (scrape_system_design_questions.scrape_company_questions
                  so net company) s = Ok qs ->
      In t qs ->
      10 < String.length t < 200) /\
  (forall members qs,
      dict_get scrape_system_design_questions.output_file
        (files (state_after (scrape_system_design_questions.main so net) s)) =
        Some (Json members) ->
      dict_get company members = Some qs ->
      In t qs ->
      10 < String.length t < 200).
Proof.
  assert (Hval : forall qs,
             aggregated_value so net
               scrape_system_design_questions.extract_common_questions company
             = Ok qs ->
             In t qs -> 10 < String.length t < 200).
  { intros qs Hv Hin.
    apply (aggregated_value_In so net _ company qs t Hv) in Hin.
    now apply length_ok_spec. }
  split.
  - intros qs. unfold scrape_system_design_questions.scrape_company_questions.
    rewrite value_of_scrape_with. apply Hval.
  - intros members qs Hfile Hmem.
    destruct (aggregated_output_member so net s members company qs Hfile Hmem)
      as [_ Hv].
    now apply Hval.
Qed.

(** C6 at a run where every request times out: a fallback entry of the
    written object is within the bounds. *)
Lemma C6_kept_titles_are_length_bounded_witness :
  10 < String.length "Design a fraud detection system" < 200.
Proof.
  apply (proj2 (C6_kept_titles_are_length_bounded listed_order net_down
                  "PayPal" initial_state "Design a fraud detection system")
           (results (state_after
                       (scrape_system_design_questions.main
                          listed_order net_down) initial_state))
           (fallback scrape_system_design_questions.extract_common_questions
              "PayPal")).
  - vm_compute. reflexivity.
  - vm_compute. reflexivity.
  - vm_compute. right. left. reflexivity.
Defined.

(** C7. The list that each variant produces for a company has no two
    equal strings: the lists that [search_questions] and
    [search_comprehensive] return, the list that
    [scrape_company_questions] returns, and every member of the JSON
    object that [main] writes. *)
Theorem C7_final_collections_have_no_duplicates (so : SetOrder)
    (net : network) (company : string) (s : state) :
  (exists qs,
      value_of (scrape_questions.search_questions so net company) s = Ok qs /\
      NoDup qs) /\
  (exists qs,
      value_of (enhanced_scraper.search_comprehensive so net company) s = Ok qs /\
      NoDup qs) /\
  (forall qs,
      value_of (scrape_system_design_questions.scrape_company_questions
                  so net company) s = Ok qs ->
      NoDup qs) /\
  (forall members qs,
      dict_get scrape_system_design_questions.output_file
        (files (state_after (scrape_system_design_questions.main so net) s)) =
        Some (Json members) ->
      dict_get company members = Some qs ->
      NoDup qs).
Proof.
  split; [|split; [|split]].
  - exists (text_questions so net company). split.
    + apply value_of_search_questions.
    + apply list_of_set_NoDup.
  - exists (enhanced_questions so net company). split.
    + apply value_of_search_comprehensive.
    + apply list_of_set_NoDup.
  - intros qs. unfold scrape_system_design_questions.scrape_company_questions.
    rewrite value_of_scrape_with. apply aggregated_value_NoDup.
  - intros members qs Hfile Hmem.
    destruct (aggregated_output_member so net s members company qs Hfile Hmem)
      as [_ Hv].
    now apply aggregated_value_NoDup with (1 := Hv).
Qed.

(** C7 at a run where every request times out: the list returned for
    Mastercard has no duplicates. *)
Lemma C7_final_collections_have_no_duplicates_witness :
  NoDup (fallback scrape_system_design_questions.extract_common_questions
           "Mastercard").
Proof.
  apply (proj1 (proj2 (proj2 (C7_final_collections_have_no_duplicates
                                listed_order net_down "Mastercard"
                                initial_state)))
           (fallback scrape_system_design_questions.extract_common_questions
              "Mastercard")).
  vm_compute. reflexivity.
Defined.

(** C10. In the JSON-output variant the length filter comes after the
    fallback merge.  With any fallback table, every string of the list
    that the scrape returns is longer than 10 and shorter than 200
    characters, and a fallback entry of the company is in that list exactly
    when its length is within these bounds: an entry outside them is
    dropped, and the scrape returns all the same. *)
Theorem C10_length_filter_covers_fallback (so : SetOrder) (net : network)
    (table : dict (list string)) (company : string) (s : state)
    (qs : list string) :
  value_of (scrape_system_design_questions.scrape_company_questions_with
              so net table company) s = Ok qs ->
  (forall q, In q qs -> 10 < String.length q < 200) /\
  (forall q, In q (fallback table company) ->
             (In q qs <-> 10 < String.length q < 200)).
Proof.
  rewrite value_of_scrape_with. intros Hv. split.
  - intros q Hin. apply (aggregated_value_In so net _ company qs q Hv) in Hin.
    now apply length_ok_spec.
  - intros q Hfb. rewrite (aggregated_value_In so net _ company qs q Hv).
    rewrite length_ok_spec. tauto.
Qed.

(** C10 with a table that has an entry of nine characters, at a run
    where every request times out: the scrape returns the other entry
    alone. *)
Lemma C10_length_filter_covers_fallback_witness :
  (forall q, In q ["Design a payment processing system"] ->
             10 < String.length q < 200) /\
  (forall q, In q (fallback
                     [("Acme", ["Too short";
                                "Design a payment processing system"])]
                     "Acme") ->
             (In q ["Design a payment processing system"] <->
              10 < String.length q < 200)).
Proof.
  exact (C10_length_filter_covers_fallback listed_order net_down
           [("Acme", ["Too short"; "Design a payment processing system"])]
           "Acme" initial_state
           ["Design a payment processing system"] eq_refl).
Defined.

(* ================================================================== *)
(** ** When every request fails *)

Lemma common_questions_length_ok (company q : string) :
  In q (fallback scrape_system_design_questions.extract_common_questions
          company) ->
  length_ok q = true.
Proof.
  unfold fallback.
  destruct (dict_get company _) as [known|] eqn:E; [|intros []].
  apply dict_get_In in E.
  assert (Hall : forallb (fun '(_, known) => forallb length_ok known)
                   scrape_system_design_questions.extract_common_questions
                 = true) by (vm_compute; reflexivity).
  rewrite forallb_forall in Hall. specialize (Hall _ E). cbv beta iota in Hall.
  rewrite forallb_forall in Hall. apply Hall.
Qed.

(** C4. If the network call raises for every request made for a company
    (network error, timeout, decode error), the list produced for the
    company has exactly the members of its fallback list (none for a
    company that the table does not have).  In [scrape_questions] this
    is the list that [search_questions] returns to [main].  In
    [scrape_system_design_questions] it is the list that the scrape
    returns and stores in [results] for the company, and, for a company
    of the list of [main], the member of the company in the JSON object
    that [main] writes.  In [enhanced_scraper], which has no fallback
    table, the list is empty. *)
Theorem C4_all_requests_fail_gives_fallback (so : SetOrder) (net : network)
    (company : string) (s : state) :
  (all_raise net [(DuckDuckGoHtml, scrape_questions.search_query company)] ->
   exists qs,
     value_of (scrape_questions.search_questions so net company) s = Ok qs /\
     forall t, In t qs <->
               In t (fallback scrape_questions.known_questions company)) /\
  (all_raise net (aggregated_requests company) ->
   exists qs,
     value_of (scrape_system_design_questions.scrape_company_questions
                 so net company) s = Ok qs /\
     dict_get company
       (results
          (state_after
             (scrape_system_design_questions.scrape_company_questions
                so net company) s)) = Some qs /\
     (In company scrape_system_design_questions.companies ->
      dict_get company
        (results
           (state_after (scrape_system_design_questions.main so net) s))
        = Some qs /\
      exists members,
        dict_get scrape_system_design_questions.output_file
          (files
             (state_after (scrape_system_design_questions.main so net) s))
          = Some (Json members) /\
        dict_get company members = Some qs) /\
     forall t, In t qs <->
               In t (fallback
                       scrape_system_design_questions.extract_common_questions
                       company)) /\
  (all_raise net (map (pair DuckDuckGoHtml)
                      (enhanced_scraper.search_queries company)) ->
   value_of (enhanced_scraper.search_comprehensive so net company) s = Ok []).
Proof.
  split; [|split].
  - intros Hall. exists (text_questions so net company).
    split; [apply value_of_search_questions|].
    intros t. unfold text_questions, text_harvest.
    destruct (Hall DuckDuckGoHtml _ (or_introl eq_refl))
      as [[e ->]|[Hep _]]; [|discriminate Hep].
    now rewrite list_of_set_In.
  - intros Hall.
    destruct (Hall LeetCodeDiscuss _ (or_introl eq_refl))
      as [[e1 H1]|[Hep _]]; [|discriminate Hep].
    destruct (Hall DuckDuckGoHtml _ (or_intror (or_introl eq_refl)))
      as [[e2 H2]|[Hep _]]; [|discriminate Hep].
    assert (H3 : github_titles net company = Some []).
    { unfold github_titles.
      destruct (Hall GitHubRepoSearch _
                  (or_intror (or_intror (or_introl eq_refl))))
        as [[e3 ->]|[_ [r [msg [-> [Hcode ->]]]]]]; [reflexivity|].
      now rewrite Hcode. }
    set (table := scrape_system_design_questions.extract_common_questions).
    assert (Hv : aggregated_value so net table company =
                 Ok (filter length_ok
                       (list_of_set so (fallback table company)))).
    { unfold aggregated_value, leetcode_titles, alternative_titles.
      rewrite H1, H2, H3. reflexivity. }
    unfold scrape_system_design_questions.scrape_company_questions.
    fold table.
    exists (filter length_ok (list_of_set so (fallback table company))).
    split; [|split; [|split]].
    + rewrite value_of_scrape_with. exact Hv.
    + unfold state_after. rewrite scrape_company_questions_with_run, Hv.
      cbn [snd results with_result]. apply dict_get_set_same.
    + intros Hin.
      destruct (aggregated_main_state so net s) as [_ [Hres [_ Hfile]]].
      assert (Hget : dict_get company
                       (results
                          (state_after
                             (scrape_system_design_questions.main so net) s))
                     = Some (filter length_ok
                               (list_of_set so (fallback table company)))).
      { rewrite Hres. now apply loop_results_ok. }
      split; [exact Hget|].
      eexists. split; [exact Hfile | exact Hget].
    + intros t. rewrite filter_In, list_of_set_In. split.
      * now intros [H _].
      * intros H. split; [exact H | now apply common_questions_length_ok
                                       with (company := company)].
  - intros Hall. rewrite value_of_search_comprehensive.
    unfold enhanced_questions.
    assert (Hnil : forall qs,
               (forall q, In q qs -> exists e, net DuckDuckGoHtml q = Raised e) ->
               flat_map (enhanced_harvest net) qs = []).
    { induction qs as [|q qs IH]; intros H; [reflexivity|].
      cbn [flat_map]. rewrite IH by (intros q' Hq'; apply H; now right).
      unfold enhanced_harvest.
      destruct (H q (or_introl eq_refl)) as [e ->]. reflexivity. }
    rewrite Hnil; [now rewrite list_of_set_nil|].
    intros q Hq.
    destruct (Hall DuckDuckGoHtml q) as [He|[Hep _]];
      [apply in_map_iff; now exists q | exact He | discriminate Hep].
Qed.

(** C4 at a run where every request times out, for PayPal, with the set
    iterated the other way round: the list returned, the entry of
    [results] and the member of the JSON object written have the members
    of the fallback list. *)
Lemma C4_all_requests_fail_gives_fallback_witness :
  exists qs,
    value_of (scrape_system_design_questions.scrape_company_questions
                reverse_order net_down "PayPal") initial_state = Ok qs /\
    dict_get "PayPal"
      (results
         (state_after
            (scrape_system_design_questions.scrape_company_questions
               reverse_order net_down "PayPal") initial_state)) = Some qs /\
    (In "PayPal" scrape_system_design_questions.companies ->
     dict_get "PayPal"
       (results
          (state_after
             (scrape_system_design_questions.main reverse_order net_down)
             initial_state))
       = Some qs /\
     exists members,
       dict_get scrape_system_design_questions.output_file
         (files
            (state_after
               (scrape_system_design_questions.main reverse_order net_down)
               initial_state))
         = Some (Json members) /\
       dict_get "PayPal" members = Some qs) /\
    forall t, In t qs <->
              In t (fallback
                      scrape_system_design_questions.extract_common_questions
                      "PayPal").
Proof.
  apply (proj1 (proj2 (C4_all_requests_fail_gives_fallback
                         reverse_order net_down "PayPal" initial_state))).
  intros ep q _. left. exists (RequestException "timed out"). reflexivity.
Defined.

(* ================================================================== *)
(** ** A status other than 200 in the JSON-output variant *)

Lemma some_not_200_raises (so : SetOrder) (net : network)
    (table : dict (list string)) (company : string) :
  some_not_200 net (aggregated_requests company) ->
  aggregated_value so net table company = Raise none_not_iterable.
Proof.
  intros [ep [q [r [Hin [Hnet Hcode]]]]].
  apply Z.eqb_neq in Hcode.
  unfold aggregated_value.
  destruct Hin as [[= <- <-]|[[= <- <-]|[[= <- <-]|[]]]].
  - unfold leetcode_titles. now rewrite Hnet, Hcode.
  - destruct (leetcode_titles net company); [|reflexivity].
    unfold alternative_titles. now rewrite Hnet, Hcode.
  - destruct (leetcode_titles net company); [|reflexivity].
    destruct (alternative_titles net company); [|reflexivity].
    unfold github_titles. now rewrite Hnet, Hcode.
Qed.

(** C3. In the JSON-output variant a search whose response has a status
    other than 200 (201 and 204 as well as 404) returns [None].  When
    one of the three requests for a company is answered so,
    [scrape_company_questions] raises the [TypeError] of
    [extend(None)]; [main] catches it and prints the error, and the
    company is a key neither of [results] nor of the JSON object
    written. *)
Theorem C3_status_not_200_drops_the_company (so : SetOrder) (net : network)
    (company : string) (s : state) :
  (forall r,
      net LeetCodeDiscuss
          (scrape_system_design_questions.leetcode_query company)
        = Responded r ->
      status_code r <> 200%Z ->
      value_of (scrape_system_design_questions.search_leetcode_discuss
                  net company) s = Ok None) /\
  (forall r,
      net DuckDuckGoHtml
          (scrape_system_design_questions.alternative_query company)
        = Responded r ->
      status_code r <> 200%Z ->
      value_of (scrape_system_design_questions.search_glassdoor_alternative
                  net company) s = Ok None) /\
  (forall r,
      net GitHubRepoSearch
          (scrape_system_design_questions.github_query company)
        = Responded r ->
      status_code r <> 200%Z ->
      value_of (scrape_system_design_questions.search_github_repos
                  net company) s = Ok None) /\
  (some_not_200 net (aggregated_requests company) ->
   let final := state_after (scrape_system_design_questions.main so net) s in
   value_of (scrape_system_design_questions.scrape_company_questions
               so net company) s
     = Raise (TypeError "'NoneType' object is not iterable") /\
   value_of (scrape_system_design_questions.main so net) s = Ok tt /\
   (In company scrape_system_design_questions.companies ->
    In (ErrorProcessing company
          (TypeError "'NoneType' object is not iterable"))
       (stdout final)) /\
   ~ In company (dict_keys (results final)) /\
   exists members,
     dict_get scrape_system_design_questions.output_file (files final)
       = Some (Json members) /\
     ~ In company (dict_keys members)).
Proof.
  split; [|split; [|split]].
  - intros r Hnet Hcode. apply Z.eqb_neq in Hcode.
    unfold value_of. rewrite search_leetcode_discuss_run.
    unfold leetcode_titles. now rewrite Hnet, Hcode.
  - intros r Hnet Hcode. apply Z.eqb_neq in Hcode.
    unfold value_of. rewrite search_glassdoor_alternative_run.
    unfold alternative_titles. now rewrite Hnet, Hcode.
  - intros r Hnet Hcode. apply Z.eqb_neq in Hcode.
    unfold value_of. rewrite search_github_repos_run.
    unfold github_titles. now rewrite Hnet, Hcode.
  - intros Hsome final.
    pose proof (some_not_200_raises so net
                  scrape_system_design_questions.extract_common_questions
                  company Hsome) as Hraise.
    destruct (aggregated_main_state so net s) as [Hmain [Hres [Hout Hfile]]].
    fold final in Hres, Hout, Hfile.
    assert (Hkey : ~ In company (dict_keys (results final))).
    { apply dict_get_None_keys. rewrite Hres.
      now rewrite (loop_results_raise so net _ _ company none_not_iterable
                     Hraise). }
    split; [|split; [|split; [|split]]].
    + unfold scrape_system_design_questions.scrape_company_questions.
      rewrite value_of_scrape_with. exact Hraise.
    + exact Hmain.
    + intros Hin. rewrite Hout.
      now apply loop_stdout_raise.
    + exact Hkey.
    + exists (results final). split; [exact Hfile | exact Hkey].
Qed.

(** C3 at a run where LeetCode answers 503: Atlassian is dropped. *)
Lemma C3_status_not_200_drops_the_company_witness :
  let final :=
    state_after (scrape_system_design_questions.main
                   listed_order net_leetcode_503) initial_state in
  value_of (scrape_system_design_questions.scrape_company_questions
              listed_order net_leetcode_503 "Atlassian") initial_state
    = Raise (TypeError "'NoneType' object is not iterable") /\
  value_of (scrape_system_design_questions.main
              listed_order net_leetcode_503) initial_state = Ok tt /\
  (In "Atlassian" scrape_system_design_questions.companies ->
   In (ErrorProcessing "Atlassian"
         (TypeError "'NoneType' object is not iterable"))
      (stdout final)) /\
  ~ In "Atlassian" (dict_keys (results final)) /\
  exists members,
    dict_get scrape_system_design_questions.output_file (files final)
      = Some (Json members) /\
    ~ In "Atlassian" (dict_keys members).
Proof.
  apply (proj2 (proj2 (proj2 (C3_status_not_200_drops_the_company
                                listed_order net_leetcode_503 "Atlassian"
                                initial_state)))).
  exists LeetCodeDiscuss,
         (scrape_system_design_questions.leetcode_query "Atlassian"),
         {| status_code := 503; content := empty_body |}.
  split; [left; reflexivity | split; [reflexivity | discriminate]].
Defined.

(* ================================================================== *)
(** ** One company does not stop the others *)




(* ================================================================== *)
(** ** The text file of scrape_questions.py *)

Lemma known_questions_five (company : string) (known : list string) :
  dict_get company scrape_questions.known_questions = Some known ->
  List.length known = 5 /\ NoDup known.
Proof.
  intros H. apply dict_get_In in H.
  destruct H as [[= <- <-]|[[= <- <-]|[[= <- <-]|[]]]];
    (split; [reflexivity|]);
    repeat (constructor; [simpl; intuition discriminate|]); constructor.
Qed.

(** C8, amended.  When the search for a company harvests no title and
    the company has a fallback list, the text-sink variant run for this
    company alone writes the three banner lines followed by five numbered
    lines, whose texts are the five fallback entries, each once, in the
    order in which the set of questions is iterated. *)
Theorem C8_file_section_has_fallback_in_set_order (so : SetOrder)
    (net : network) (company : string) (known : list string) (s : state) :
  dict_get company scrape_questions.known_questions = Some known ->
  text_harvest net company = [] ->
  exists qs,
    Permutation qs known /\
    List.length (numbered qs) = 5 /\
    value_of (scrape_questions.main_for so net [company]) s = Ok tt /\
    dict_get scrape_questions.output_file
      (files (state_after (scrape_questions.main_for so net [company]) s)) =
      Some (Text (join nl (banner company ++ numbered qs))).
Proof.
  intros Hknown Hzero.
  destruct (known_questions_five company known Hknown) as [Hlen Hnodup].
  exists (text_questions so net company).
  assert (Hperm : Permutation (text_questions so net company) known).
  { unfold text_questions, fallback. rewrite Hzero, Hknown. cbn [app].
    rewrite (list_of_set_perm so known).
    now rewrite (nodup_fixed_point string_dec Hnodup). }
  split; [exact Hperm|].
  split.
  { unfold numbered. rewrite numbered_from_length.
    now rewrite (Permutation_length Hperm). }
  destruct (scrape_questions_main_for_run so net [company] s)
    as [s' [Hrun Hfile]].
  unfold value_of, state_after. rewrite Hrun. split; [reflexivity|].
  cbn [snd]. rewrite Hfile. cbn [flat_map]. now rewrite app_nil_r.
Qed.

(** C8, amended, at a run where every request times out, with the set
    iterated in the order of the list. *)
Lemma C8_file_section_has_fallback_in_set_order_witness :
  exists qs,
    Permutation qs (fallback scrape_questions.known_questions "Atlassian") /\
    List.length (numbered qs) = 5 /\
    value_of (scrape_questions.main_for listed_order net_down ["Atlassian"])
      initial_state = Ok tt /\
    dict_get scrape_questions.output_file
      (files (state_after
                (scrape_questions.main_for listed_order net_down ["Atlassian"])
                initial_state)) =
      Some (Text (join nl (banner "Atlassian" ++ numbered qs))).
Proof.
  apply (C8_file_section_has_fallback_in_set_order listed_order net_down
           "Atlassian"
           (fallback scrape_questions.known_questions "Atlassian")
           initial_state).
  - reflexivity.
  - reflexivity.
Defined.

(** C8 as stated fails.  Every request times out, so the search harvests
    nothing, and Atlassian has five fallback entries; with the set
    iterated the other way round the file has the five entries in reverse
    order, not in the order of the fallback list. *)
Lemma C8_fallback_order_counterexample :
  text_harvest net_down "Atlassian" = [] /\
  List.length (fallback scrape_questions.known_questions "Atlassian") = 5 /\
  dict_get scrape_questions.output_file
    (files (state_after
              (scrape_questions.main_for reverse_order net_down ["Atlassian"])
              initial_state)) =
    Some (Text (join nl
                  (banner "Atlassian" ++
                   numbered
                     (rev (fallback scrape_questions.known_questions
                             "Atlassian"))))) /\
  dict_get scrape_questions.output_file
    (files (state_after
              (scrape_questions.main_for reverse_order net_down ["Atlassian"])
              initial_state)) <>
    Some (Text (join nl
                  (banner "Atlassian" ++
                   numbered
                     (fallback scrape_questions.known_questions
                        "Atlassian")))).
Proof.
  split; [reflexivity|].
  split; [reflexivity|].
  split; [vm_compute; reflexivity|].
  vm_compute. intros H. discriminate H.
Qed.

(* ================================================================== *)
(** ** The fallback list and a status other than 200 *)

(** In [scrape_questions] the list returned always has the fallback
    entries of the company. *)
Lemma search_questions_has_fallback (so : SetOrder) (net : network)
    (company : string) (s : state) :
  exists qs,
    value_of (scrape_questions.search_questions so net company) s = Ok qs /\
    incl (fallback scrape_questions.known_questions company) qs.
Proof.
  exists (text_questions so net company).
  split; [apply value_of_search_questions|].
  intros t Ht. unfold text_questions.
  rewrite list_of_set_In, in_app_iff. now right.
Qed.

(** In [scrape_system_design_questions] a list that the scrape returns
    has the fallback entries of the company. *)
Lemma scrape_company_questions_has_fallback (so : SetOrder) (net : network)
    (company : string) (s : state) (qs : list string) :
  value_of (scrape_system_design_questions.scrape_company_questions
              so net company) s = Ok qs ->
  incl (fallback scrape_system_design_questions.extract_common_questions
          company) qs.
Proof.
  unfold scrape_system_design_questions.scrape_company_questions.
  rewrite value_of_scrape_with. intros Hv t Ht.
  apply (aggregated_value_In so net _ company qs t Hv).
  split; [now apply common_questions_length_ok with (company := company)|].
  now right; right; right.
Qed.

(** In [scrape_questions] a response with a status other than 200 adds
    no title and prints nothing, and the search goes on to the fallback
    list. *)
Lemma search_questions_status_not_200 (so : SetOrder) (net : network)
    (company : string) (r : response) (s : state) :
  net DuckDuckGoHtml (scrape_questions.search_query company) = Responded r ->
  status_code r <> 200%Z ->
  scrape_questions.search_questions so net company s =
  (Ok (list_of_set so (fallback scrape_questions.known_questions company)), s).
Proof.
  intros Hnet Hcode. apply Z.eqb_neq in Hcode.
  rewrite search_questions_run. unfold text_harvest, text_log.
  now rewrite Hnet, Hcode, add_log_nil.
Qed.

(** In [enhanced_scraper] a response with a status other than 200 adds no
    title for its query. *)
Lemma enhanced_harvest_status_not_200 (net : network) (query : string)
    (r : response) :
  net DuckDuckGoHtml query = Responded r ->
  status_code r <> 200%Z ->
  enhanced_harvest net query = [] /\ enhanced_log net query = [].
Proof.
  intros Hnet Hcode. apply Z.eqb_neq in Hcode.
  unfold enhanced_harvest, enhanced_log. now rewrite Hnet, Hcode.
Qed.

(** C1, at the input where it fails.  LeetCode answers 503 to the request
    for Atlassian and every other request times out.  Atlassian has five
    fallback entries in the table of the JSON-output variant, and none of
    them is in the output: the object written has PayPal and Mastercard
    only. *)
Theorem C1_fallback_lost_on_status_503 :
  let final :=
    state_after (scrape_system_design_questions.main
                   listed_order net_atlassian_503) initial_state in
  List.length
    (fallback scrape_system_design_questions.extract_common_questions
       "Atlassian") = 5 /\
  dict_get "Atlassian" (results final) = None /\
  dict_get scrape_system_design_questions.output_file (files final) =
    Some (Json
            [ ("PayPal",
               fallback scrape_system_design_questions.extract_common_questions
                 "PayPal");
              ("Mastercard",
               fallback scrape_system_design_questions.extract_common_questions
                 "Mastercard") ]).
Proof.
  split; [reflexivity|].
  split; vm_compute; reflexivity.
Qed.

(** C2, at the input where it fails.  LeetCode answers 503 to the request
    for Atlassian.  In the JSON-output variant the search returns [None]
    and not an empty list, the scrape raises at [extend] before it sends
    the two other requests (nothing is printed for them, though both time
    out), and no list is stored for the company.  In [scrape_questions]
    the same status adds no title and the search returns the fallback
    list. *)
Theorem C2_status_503_stops_the_scrape :
  scrape_system_design_questions.search_leetcode_discuss
    net_atlassian_503 "Atlassian" initial_state = (Ok None, initial_state) /\
  scrape_system_design_questions.scrape_company_questions
    listed_order net_atlassian_503 "Atlassian" initial_state =
    (Raise (TypeError "'NoneType' object is not iterable"), initial_state) /\
  scrape_questions.search_questions
    listed_order (net_status 503) "Atlassian" initial_state =
    (Ok (fallback scrape_questions.known_questions "Atlassian"),
     initial_state).
Proof.
  repeat split; vm_compute; reflexivity.
Qed.

(* ================================================================== *)
(** ** Two runs *)

(** The search engine answers with the anchors
    ["Atlassian System Design Interview"] and ["Unrelated Topic"]: the
    search for Atlassian harvests the first alone. *)
Example harvest_keeps_the_matching_anchor :
  text_harvest net_leetcode_503 "Atlassian" =
  ["Atlassian System Design Interview"].
Proof. reflexivity. Qed.

(** With the set iterated in the order of the list, and nothing
    harvested, the numbered lines are in the order of the fallback
    list. *)
Example listed_order_gives_fallback_order :
  dict_get scrape_questions.output_file
    (files (state_after
              (scrape_questions.main_for listed_order net_down ["PayPal"])
              initial_state)) =
  Some (Text (join nl
                (banner "PayPal" ++
                 numbered (fallback scrape_questions.known_questions
                             "PayPal")))).
Proof. vm_compute. reflexivity. Qed.

(* ================================================================== *)
(** ** Further properties: the searches of the two text variants *)

Lemma keep_if_length (p : string -> bool) (xs : list string) :
  List.length (flat_map (keep_if p) xs) <= List.length xs.
Proof.
  induction xs as [|x xs IH]; simpl; [lia|].
  rewrite length_app. unfold keep_if at 1. destruct (p x); simpl; lia.
Qed.

Lemma list_of_set_length (so : SetOrder) (xs : list string) :
  List.length (list_of_set so xs) <= List.length xs.
Proof.
  apply NoDup_incl_length; [apply list_of_set_NoDup|].
  intros t. apply list_of_set_In.
Qed.

Lemma text_harvest_In (net : network) (company t : string) :
  In t (text_harvest net company) <->
  exists r,
    net DuckDuckGoHtml (scrape_questions.search_query company) = Responded r /\
    status_code r = 200%Z /\
    In t (firstn 5 (result_anchors (content r))) /\
    any_in ["design"; "system"; "interview"] (lower t) = true.
Proof.
  unfold text_harvest.
  destruct (net DuckDuckGoHtml _) as [e|r].
  - split; [intros [] | intros [r [H _]]; discriminate H].
  - destruct (Z.eqb_spec (status_code r) 200) as [Hcode|Hcode].
    + rewrite In_flat_map_keep_if. split.
      * intros [Hin Hkw]. now exists r.
      * intros [r' [[= <-] [_ H]]]. exact H.
    + split; [intros [] | intros [r' [[= <-] [H _]]]; contradiction].
Qed.

Lemma text_harvest_length (net : network) (company : string) :
  List.length (text_harvest net company) <= 5.
Proof.
  unfold text_harvest.
  destruct (net DuckDuckGoHtml _) as [e|r]; [simpl; lia|].
  destruct (status_code r =? 200)%Z; [|simpl; lia].
  etransitivity; [apply keep_if_length | apply firstn_le_length].
Qed.

Lemma known_questions_length (company : string) :
  List.length (fallback scrape_questions.known_questions company) <= 5.
Proof.
  unfold fallback.
  destruct (dict_get company _) as [known|] eqn:E; simpl; [|lia].
  destruct (known_questions_five company known E) as [-> _]. lia.
Qed.

(** X1. [search_questions] returns for every answer of the network, and
    a title is in the list it returns exactly when it is a fallback entry
    of the company or the response has status 200 and the title is the
    text of one of its first five result anchors and has, lower-cased, one
    of the three keywords.  A result after the fifth, a response with
    another status and a request that raises add nothing. *)
Theorem X1_search_questions_members (so : SetOrder) (net : network)
    (company : string) (s : state) (t : string) :
  exists qs,
    value_of (scrape_questions.search_questions so net company) s = Ok qs /\
    (In t qs <->
     In t (fallback scrape_questions.known_questions company) \/
     exists r,
       net DuckDuckGoHtml (scrape_questions.search_query company)
         = Responded r /\
       status_code r = 200%Z /\
       In t (firstn 5 (result_anchors (content r))) /\
       any_in ["design"; "system"; "interview"] (lower t) = true).
Proof.
  exists (text_questions so net company).
  split; [apply value_of_search_questions|].
  unfold text_questions.
  rewrite list_of_set_In, in_app_iff, text_harvest_In. tauto.
Qed.

(** X2. The list that [search_questions] returns has at most five titles
    more than the fallback list of the company, and at most ten titles in
    all. *)
Theorem X2_search_questions_at_most_ten (so : SetOrder) (net : network)
    (company : string) (s : state) :
  exists qs,
    value_of (scrape_questions.search_questions so net company) s = Ok qs /\
    List.length qs <=
      5 + List.length (fallback scrape_questions.known_questions company) /\
    List.length qs <= 10.
Proof.
  exists (text_questions so net company).
  split; [apply value_of_search_questions|].
  pose proof (list_of_set_length so
                (text_harvest net company ++
                 fallback scrape_questions.known_questions company)) as H.
  rewrite length_app in H.
  pose proof (text_harvest_length net company).
  pose proof (known_questions_length company).
  unfold text_questions. lia.
Qed.

(** X3. [search_questions] swallows the exception of its request: it
    prints one error report, with the company and the exception, when
    [session.get] raises, and nothing otherwise; it changes neither
    [results] nor the files. *)
Theorem X3_search_questions_reports_the_exception (so : SetOrder)
    (net : network) (company : string) (s : state) :
  let s' :=
    state_after (scrape_questions.search_questions so net company) s in
  results s' = results s /\
  files s' = files s /\
  match net DuckDuckGoHtml (scrape_questions.search_query company) with
  | Raised e => stdout s' = stdout s ++ [ErrorSearchingFor company e]
  | Responded _ => stdout s' = stdout s
  end.
Proof.
  unfold state_after. rewrite search_questions_run. cbn [snd].
  unfold text_log.
  destruct (net DuckDuckGoHtml _); [|rewrite add_log_nil]; now repeat split.
Qed.

Lemma enhanced_harvest_In (net : network) (query t : string) :
  In t (enhanced_harvest net query) <->
  exists r,
    net DuckDuckGoHtml query = Responded r /\
    status_code r = 200%Z /\
    In t (firstn 3 (result_anchors (content r))) /\
    any_in ["design"; "system"; "interview"; "experience"] (lower t) = true.
Proof.
  unfold enhanced_harvest.
  destruct (net DuckDuckGoHtml query) as [e|r].
  - split; [intros [] | intros [r [H _]]; discriminate H].
  - destruct (Z.eqb_spec (status_code r) 200) as [Hcode|Hcode].
    + rewrite In_flat_map_keep_if. split.
      * intros [Hin Hkw]. now exists r.
      * intros [r' [[= <-] [_ H]]]. exact H.
    + split; [intros [] | intros [r' [[= <-] [H _]]]; contradiction].
Qed.

Lemma enhanced_harvest_length (net : network) (query : string) :
  List.length (enhanced_harvest net query) <= 3.
Proof.
  unfold enhanced_harvest.
  destruct (net DuckDuckGoHtml query) as [e|r]; [simpl; lia|].
  destruct (status_code r =? 200)%Z; [|simpl; lia].
  etransitivity; [apply keep_if_length | apply firstn_le_length].
Qed.

Lemma flat_map_length_bound {A B : Type} (g : A -> list B) (k : nat)
    (xs : list A) :
  (forall x, List.length (g x) <= k) ->
  List.length (flat_map g xs) <= k * List.length xs.
Proof.
  intros Hg. induction xs as [|x xs IH]; simpl; [lia|].
  rewrite length_app. specialize (Hg x). lia.
Qed.

(** X4. [search_comprehensive] returns for every answer of the network,
    and a title is in the list it returns exactly when one of the ten
    queries of the company is answered with status 200 and the title is the
    text of one of the first three result anchors of that response and
    has, lower-cased, one of the four keywords.  A query that raises or is
    answered with another status takes nothing from what the other queries
    give. *)
Theorem X4_search_comprehensive_members (so : SetOrder) (net : network)
    (company : string) (s : state) (t : string) :
  exists qs,
    value_of (enhanced_scraper.search_comprehensive so net company) s = Ok qs /\
    (In t qs <->
     exists query r,
       In query (enhanced_scraper.search_queries company) /\
       net DuckDuckGoHtml query = Responded r /\
       status_code r = 200%Z /\
       In t (firstn 3 (result_anchors (content r))) /\
       any_in ["design"; "system"; "interview"; "experience"] (lower t)
         = true).
Proof.
  exists (enhanced_questions so net company).
  split; [apply value_of_search_comprehensive|].
  unfold enhanced_questions. rewrite list_of_set_In, in_flat_map. split.
  - intros [q [Hq Hin]]. apply enhanced_harvest_In in Hin.
    destruct Hin as [r H]. now exists q, r.
  - intros [q [r [Hq H]]]. exists q. split; [exact Hq|].
    apply enhanced_harvest_In. now exists r.
Qed.

(** X5. The list that [search_comprehensive] returns has at most thirty
    titles: three for each of the ten queries. *)
Theorem X5_search_comprehensive_at_most_thirty (so : SetOrder)
    (net : network) (company : string) (s : state) :
  exists qs,
    value_of (enhanced_scraper.search_comprehensive so net company) s = Ok qs /\
    List.length qs <= 30.
Proof.
  exists (enhanced_questions so net company).
  split; [apply value_of_search_comprehensive|].
  unfold enhanced_questions.
  etransitivity; [apply list_of_set_length|].
  etransitivity;
    [apply (flat_map_length_bound _ 3), enhanced_harvest_length|].
  simpl. lia.
Qed.

(** X6. [search_comprehensive] prints one error report for each query
    whose request raises, with the query and the exception, in the order of
    the queries, and nothing else; it changes neither [results] nor the
    files. *)
Theorem X6_search_comprehensive_reports_each_exception (so : SetOrder)
    (net : network) (company : string) (s : state) :
  let s' :=
    state_after (enhanced_scraper.search_comprehensive so net company) s in
  results s' = results s /\
  files s' = files s /\
  stdout s' =
    stdout s ++
    flat_map
      (fun query =>
         match net DuckDuckGoHtml query with
         | Raised e => [ErrorWithQuery query e]
         | Responded _ => []
         end)
      (enhanced_scraper.search_queries company).
Proof.
  unfold state_after. rewrite search_comprehensive_run. cbn [snd].
  now repeat split.
Qed.

(* ================================================================== *)
(** ** Further properties: the three searches of the JSON variant *)

Lemma leetcode_keep_filter (topics : list (option string)) :
  map Some (flat_map leetcode_keep topics) =
  filter
    (fun title_elem =>
       match title_elem with
       | Some title =>
           any_in ["system design"; "design"; "architecture"] (lower title)
       | None => false
       end)
    topics.
Proof.
  induction topics as [|[title|] topics IH]; cbn [flat_map filter map].
  - reflexivity.
  - rewrite map_app, IH. unfold leetcode_keep, keep_if.
    destruct (any_in _ (lower title)); reflexivity.
  - exact IH.
Qed.

Lemma keep_if_filter (p : string -> bool) (xs : list string) :
  flat_map (keep_if p) xs = filter p xs.
Proof.
  induction xs as [|x xs IH]; cbn [flat_map filter]; [reflexivity|].
  rewrite IH. unfold keep_if. now destruct (p x).
Qed.

(** X7. [search_leetcode_discuss] never raises.  When [session.get]
    raises it returns the empty list; on a response with a status other
    than 200 it returns [None]; on status 200 it returns the texts of the
    anchors of the first five topics, a topic without an anchor skipped,
    that have lower-cased one of its three keywords, in document order and
    with their repetitions. *)
Theorem X7_search_leetcode_discuss_returns (net : network)
    (company : string) (s : state) :
  exists v,
    value_of (scrape_system_design_questions.search_leetcode_discuss
                net company) s = Ok v /\
    match net LeetCodeDiscuss
              (scrape_system_design_questions.leetcode_query company) with
    | Raised _ => v = Some []
    | Responded r =>
        if (status_code r =? 200)%Z then
          exists qs,
            v = Some qs /\
            map Some qs =
              filter
                (fun title_elem =>
                   match title_elem with
                   | Some title =>
                       any_in ["system design"; "design"; "architecture"]
                              (lower title)
                   | None => false
                   end)
                (firstn 5 (topic_titles (content r)))
        else v = None
    end.
Proof.
  exists (leetcode_titles net company). split.
  - unfold value_of. now rewrite search_leetcode_discuss_run.
  - unfold leetcode_titles.
    destruct (net LeetCodeDiscuss _) as [e|r]; [reflexivity|].
    destruct (status_code r =? 200)%Z; [|reflexivity].
    eexists. split; [reflexivity | apply leetcode_keep_filter].
Qed.

(** X8. [search_glassdoor_alternative] never raises.  When
    [session.get] raises it returns the empty list; on a response with a
    status other than 200 it returns [None]; on status 200 it returns the
    texts of the first three result anchors that contain, lower-cased,
    ["system design"], in document order and with their repetitions. *)
Theorem X8_search_glassdoor_alternative_returns (net : network)
    (company : string) (s : state) :
  exists v,
    value_of (scrape_system_design_questions.search_glassdoor_alternative
                net company) s = Ok v /\
    match net DuckDuckGoHtml
              (scrape_system_design_questions.alternative_query company) with
    | Raised _ => v = Some []
    | Responded r =>
        if (status_code r =? 200)%Z then
          v = Some (filter (fun title => contains "system design" (lower title))
                           (firstn 3 (result_anchors (content r))))
        else v = None
    end.
Proof.
  exists (alternative_titles net company). split.
  - unfold value_of. now rewrite search_glassdoor_alternative_run.
  - unfold alternative_titles.
    destruct (net DuckDuckGoHtml _) as [e|r]; [reflexivity|].
    destruct (status_code r =? 200)%Z; [|reflexivity].
    now rewrite keep_if_filter.
Qed.

Lemma github_keep_In (x : repo) (t : string) :
  In t (github_keep x) <->
  exists description,
    repo_description x = Some description /\
    description <> "" /\
    contains "system design" (lower description) = true /\
    t = (repo_name x ++ ": " ++ description)%string.
Proof.
  unfold github_keep. destruct (repo_description x) as [d|].
  - destruct (String.eqb_spec d "") as [Hd|Hd]; cbn [negb andb].
    + split; [intros [] | intros [d' [[= <-] [H _]]]; contradiction].
    + destruct (contains "system design" (lower d)) eqn:E.
      * split.
        -- intros [<-|[]]. now exists d.
        -- intros [d' [[= <-] [_ [_ ->]]]]. now left.
      * split; [intros [] | intros [d' [[= <-] [_ [H _]]]]; congruence].
  - split; [intros [] | intros [d' [H _]]; discriminate H].
Qed.

Lemma github_keep_length (x : repo) : List.length (github_keep x) <= 1.
Proof.
  unfold github_keep. destruct (repo_description x) as [d|]; simpl; [|lia].
  destruct (negb (String.eqb d "") && contains "system design" (lower d));
    simpl; lia.
Qed.

(** X9. [search_github_repos] never raises.  When [session.get] raises,
    or the response has status 200 and [response.json()] raises, it
    returns the empty list; on a status other than 200 it returns [None];
    on status 200 it returns at most three titles, each the name, a colon
    and a space, and the description of one of the first three items whose
    description is there, is not empty and contains, lower-cased,
    ["system design"].  An item without a description gives no title. *)
Theorem X9_search_github_repos_returns (net : network)
    (company : string) (s : state) :
  exists v,
    value_of (scrape_system_design_questions.search_github_repos
                net company) s = Ok v /\
    match net GitHubRepoSearch
              (scrape_system_design_questions.github_query company) with
    | Raised _ => v = Some []
    | Responded r =>
        if (status_code r =? 200)%Z then
          match body_json (content r) with
          | JsonInvalid _ => v = Some []
          | JsonItems items =>
              exists qs,
                v = Some qs /\
                List.length qs <= 3 /\
                forall t,
                  In t qs <->
                  exists x description,
                    In x (firstn 3 items) /\
                    repo_description x = Some description /\
                    description <> "" /\
                    contains "system design" (lower description) = true /\
                    t = (repo_name x ++ ": " ++ description)%string
          end
        else v = None
    end.
Proof.
  exists (github_titles net company). split.
  - unfold value_of. now rewrite search_github_repos_run.
  - unfold github_titles.
    destruct (net GitHubRepoSearch _) as [e|r]; [reflexivity|].
    destruct (status_code r =? 200)%Z; [|reflexivity].
    destruct (body_json (content r)) as [msg|items]; [reflexivity|].
    eexists. split; [reflexivity|]. split.
    + etransitivity;
        [apply (flat_map_length_bound _ 1), github_keep_length|].
      pose proof (firstn_le_length 3 items). lia.
    + intros t. rewrite in_flat_map. split.
      * intros [x [Hx Hin]]. apply github_keep_In in Hin.
        destruct Hin as [d H]. now exists x, d.
      * intros [x [d [Hx H]]]. exists x. split; [exact Hx|].
        apply github_keep_In. now exists d.
Qed.

(** X10. None of the three searches changes [results] or the files.
    Each prints one error report, with the company and the exception, when
    its request raises, the repository search also when the decoding of a
    status-200 response raises, and nothing otherwise: a status other than
    200 is not reported. *)
Theorem X10_searches_report_only_exceptions (net : network)
    (company : string) (s : state) :
  (let s' :=
     state_after (scrape_system_design_questions.search_leetcode_discuss
                    net company) s in
   results s' = results s /\ files s' = files s /\
   match net LeetCodeDiscuss
             (scrape_system_design_questions.leetcode_query company) with
   | Raised e => stdout s' = stdout s ++ [ErrorSearchingLeetCode company e]
   | Responded _ => stdout s' = stdout s
   end) /\
  (let s' :=
     state_after (scrape_system_design_questions.search_glassdoor_alternative
                    net company) s in
   results s' = results s /\ files s' = files s /\
   match net DuckDuckGoHtml
             (scrape_system_design_questions.alternative_query company) with
   | Raised e => stdout s' = stdout s ++ [ErrorSearchingAlternative company e]
   | Responded _ => stdout s' = stdout s
   end) /\
  (let s' :=
     state_after (scrape_system_design_questions.search_github_repos
                    net company) s in
   results s' = results s /\ files s' = files s /\
   match net GitHubRepoSearch
             (scrape_system_design_questions.github_query company) with
   | Raised e => stdout s' = stdout s ++ [ErrorSearchingGitHub company e]
   | Responded r =>
       match body_json (content r) with
       | JsonInvalid msg =>
           if (status_code r =? 200)%Z
           then stdout s' =
                  stdout s ++
                  [ErrorSearchingGitHub company (JSONDecodeError msg)]
           else stdout s' = stdout s
       | JsonItems _ => stdout s' = stdout s
       end
   end).
Proof.
  unfold state_after.
  rewrite search_leetcode_discuss_run, search_glassdoor_alternative_run,
    search_github_repos_run.
  cbn [snd]. unfold leetcode_log, alternative_log, github_log.
  split; [|split].
  - destruct (net LeetCodeDiscuss _); [|rewrite add_log_nil];
      now repeat split.
  - destruct (net DuckDuckGoHtml _); [|rewrite add_log_nil];
      now repeat split.
  - destruct (net GitHubRepoSearch _) as [e|r]; [now repeat split|].
    destruct (status_code r =? 200)%Z;
      destruct (body_json (content r));
      rewrite ?add_log_nil; now repeat split.
Qed.

(* ================================================================== *)
(** ** Further properties: the scrape of a company in the JSON variant *)

Lemma aggregated_value_ok_inv (so : SetOrder) (net : network)
    (table : dict (list string)) (company : string) (qs : list string) :
  aggregated_value so net table company = Ok qs ->
  ~ some_not_200 net (aggregated_requests company).
Proof.
  intros Hok Hsome.
  rewrite (some_not_200_raises so net table company Hsome) in Hok.
  discriminate Hok.
Qed.

Lemma titles_none_inv (net : network) (ep : endpoint) (q : string)
    (f : response -> option (list string)) :
  match net ep q with
  | Raised _ => Some []
  | Responded r => if (status_code r =? 200)%Z then f r else None
  end = None ->
  (forall r, f r <> None) ->
  exists r, net ep q = Responded r /\ status_code r <> 200%Z.
Proof.
  destruct (net ep q) as [e|r]; [discriminate|].
  destruct (Z.eqb_spec (status_code r) 200) as [Hc|Hc].
  - intros H Hf. now elim (Hf r).
  - intros _ _. now exists r.
Qed.

Lemma aggregated_value_raise_inv (so : SetOrder) (net : network)
    (table : dict (list string)) (company : string) (e : exn) :
  aggregated_value so net table company = Raise e ->
  e = none_not_iterable /\ some_not_200 net (aggregated_requests company).
Proof.
  unfold aggregated_value.
  destruct (leetcode_titles net company) as [l|] eqn:El.
  - destruct (alternative_titles net company) as [a|] eqn:Ea.
    + destruct (github_titles net company) as [g|] eqn:Eg; [discriminate|].
      intros [= <-]. split; [reflexivity|].
      unfold github_titles in Eg.
      destruct (titles_none_inv net GitHubRepoSearch _
                  (fun r => match body_json (content r) with
                            | JsonInvalid _ => Some []
                            | JsonItems items =>
                                Some (flat_map github_keep (firstn 3 items))
                            end) Eg) as [r [Hnet Hc]].
      { intros r. now destruct (body_json (content r)). }
      exists GitHubRepoSearch,
        (scrape_system_design_questions.github_query company), r.
      split; [right; right; left; reflexivity | now split].
    + intros [= <-]. split; [reflexivity|].
      unfold alternative_titles in Ea.
      destruct (titles_none_inv net DuckDuckGoHtml _ _ Ea) as [r [Hnet Hc]];
        [discriminate|].
      exists DuckDuckGoHtml,
        (scrape_system_design_questions.alternative_query company), r.
      split; [right; left; reflexivity | now split].
  - intros [= <-]. split; [reflexivity|].
    unfold leetcode_titles in El.
    destruct (titles_none_inv net LeetCodeDiscuss _ _ El) as [r [Hnet Hc]];
      [discriminate|].
    exists LeetCodeDiscuss,
        (scrape_system_design_questions.leetcode_query company), r.
    split; [left; reflexivity | now split].
Qed.

(** X11. Whatever the fallback table, the scrape of a company raises
    exactly when one of its three requests is answered with a status other
    than 200, and then what it raises is the [TypeError] of
    [extend(None)]; it returns a list in every other case, also when
    requests raise or the JSON cannot be decoded. *)
Theorem X11_scrape_raises_exactly_on_status_not_200 (so : SetOrder)
    (net : network) (table : dict (list string)) (company : string)
    (s : state) :
  match value_of
          (scrape_system_design_questions.scrape_company_questions_with
             so net table company) s with
  | Ok _ => ~ some_not_200 net (aggregated_requests company)
  | Raise e =>
      e = TypeError "'NoneType' object is not iterable" /\
      some_not_200 net (aggregated_requests company)
  end.
Proof.
  rewrite value_of_scrape_with.
  destruct (aggregated_value so net table company) as [qs|e] eqn:E.
  - now apply aggregated_value_ok_inv with (1 := E).
  - now apply aggregated_value_raise_inv with (1 := E).
Qed.

(** X12. What the scrape of a company does to the state.  It never
    changes the files and only adds to what is printed.  When it returns a
    list, [results] has that list for the company and every other entry
    as before; when it raises, [results] is as before, so an entry that
    the company had stays. *)
Theorem X12_scrape_stores_what_it_returns (so : SetOrder) (net : network)
    (table : dict (list string)) (company : string) (s : state) :
  let s' :=
    state_after
      (scrape_system_design_questions.scrape_company_questions_with
         so net table company) s in
  files s' = files s /\
  (exists evs, stdout s' = stdout s ++ evs) /\
  match value_of
          (scrape_system_design_questions.scrape_company_questions_with
             so net table company) s with
  | Ok qs =>
      dict_get company (results s') = Some qs /\
      forall other, other <> company ->
                    dict_get other (results s') = dict_get other (results s)
  | Raise _ => results s' = results s
  end.
Proof.
  unfold state_after, value_of. rewrite scrape_company_questions_with_run.
  destruct (aggregated_value so net table company) as [qs|e];
    cbn [fst snd results stdout files with_result add_log].
  - split; [reflexivity|]. split; [now eexists|]. split.
    + apply dict_get_set_same.
    + intros other Hne. now apply dict_get_set_other.
  - split; [reflexivity|]. split; [now eexists | reflexivity].
Qed.

(** X13. How the scrape puts its parts together.  When the three searches
    return lists, the scrape returns, and a title is in its list exactly
    when its length is above 10 and below 200 and it is in one of the
    three lists or in the fallback list of the company. *)
Theorem X13_scrape_merges_the_searches (so : SetOrder) (net : network)
    (table : dict (list string)) (company : string) (s : state)
    (l a g : list string) :
  value_of (scrape_system_design_questions.search_leetcode_discuss
              net company) s = Ok (Some l) ->
  value_of (scrape_system_design_questions.search_glassdoor_alternative
              net company) s = Ok (Some a) ->
  value_of (scrape_system_design_questions.search_github_repos
              net company) s = Ok (Some g) ->
  exists qs,
    value_of (scrape_system_design_questions.scrape_company_questions_with
                so net table company) s = Ok qs /\
    forall t,
      In t qs <->
      10 < String.length t < 200 /\
      (In t l \/ In t a \/ In t g \/ In t (fallback table company)).
Proof.
  unfold value_of.
  rewrite search_leetcode_discuss_run, search_glassdoor_alternative_run,
    search_github_repos_run.
  cbn [fst]. intros [= Hl] [= Ha] [= Hg].
  fold (value_of
          (scrape_system_design_questions.scrape_company_questions_with
             so net table company) s).
  rewrite value_of_scrape_with. unfold aggregated_value.
  rewrite Hl, Ha, Hg. eexists. split; [reflexivity|].
  intros t. rewrite filter_In, list_of_set_In, !in_app_iff, length_ok_spec.
  tauto.
Qed.

(** X13 at a run where every request times out. *)
Lemma X13_scrape_merges_the_searches_witness :
  exists qs,
    value_of (scrape_system_design_questions.scrape_company_questions_with
                listed_order net_down
                scrape_system_design_questions.extract_common_questions
                "PayPal") initial_state = Ok qs /\
    forall t,
      In t qs <->
      10 < String.length t < 200 /\
      (In t [] \/ In t [] \/ In t [] \/
       In t (fallback scrape_system_design_questions.extract_common_questions
               "PayPal")).
Proof.
  apply (X13_scrape_merges_the_searches listed_order net_down
           scrape_system_design_questions.extract_common_questions
           "PayPal" initial_state [] [] []); reflexivity.
Defined.

Lemma leetcode_titles_length (net : network) (company : string) :
  match leetcode_titles net company with
  | Some l => List.length l <= 5
  | None => True
  end.
Proof.
  unfold leetcode_titles.
  destruct (net LeetCodeDiscuss _) as [e|r]; [simpl; lia|].
  destruct (status_code r =? 200)%Z; [|exact I].
  apply Nat.le_trans
    with (1 * List.length (firstn 5 (topic_titles (content r)))).
  - apply flat_map_length_bound.
    intros [t|]; unfold leetcode_keep, keep_if; [|simpl; lia].
    destruct (any_in _ _); simpl; lia.
  - pose proof (firstn_le_length 5 (topic_titles (content r))). lia.
Qed.

Lemma alternative_titles_length (net : network) (company : string) :
  match alternative_titles net company with
  | Some a => List.length a <= 3
  | None => True
  end.
Proof.
  unfold alternative_titles.
  destruct (net DuckDuckGoHtml _) as [e|r]; [simpl; lia|].
  destruct (status_code r =? 200)%Z; [|exact I].
  etransitivity; [apply keep_if_length | apply firstn_le_length].
Qed.

Lemma github_titles_length (net : network) (company : string) :
  match github_titles net company with
  | Some g => List.length g <= 3
  | None => True
  end.
Proof.
  unfold github_titles.
  destruct (net GitHubRepoSearch _) as [e|r]; [simpl; lia|].
  destruct (status_code r =? 200)%Z; [|exact I].
  destruct (body_json (content r)) as [msg|items]; [simpl; lia|].
  apply Nat.le_trans with (1 * List.length (firstn 3 items)).
  - apply flat_map_length_bound, github_keep_length.
  - pose proof (firstn_le_length 3 items). lia.
Qed.

(** X14. A list that the scrape returns has at most eleven titles more
    than the fallback list of the company: five from LeetCode, three from
    each of the two other searches. *)
Theorem X14_scrape_at_most_eleven_harvested (so : SetOrder) (net : network)
    (table : dict (list string)) (company : string) (s : state)
    (qs : list string) :
  value_of (scrape_system_design_questions.scrape_company_questions_with
              so net table company) s = Ok qs ->
  List.length qs <= 11 + List.length (fallback table company).
Proof.
  rewrite value_of_scrape_with. unfold aggregated_value.
  destruct (leetcode_titles net company) as [l|] eqn:El; [|discriminate].
  destruct (alternative_titles net company) as [a|] eqn:Ea; [|discriminate].
  destruct (github_titles net company) as [g|] eqn:Eg; [|discriminate].
  intros [= <-].
  pose proof (leetcode_titles_length net company) as Hl. rewrite El in Hl.
  pose proof (alternative_titles_length net company) as Ha. rewrite Ea in Ha.
  pose proof (github_titles_length net company) as Hg. rewrite Eg in Hg.
  etransitivity; [apply filter_length_le|].
  etransitivity; [apply list_of_set_length|].
  rewrite !length_app. lia.
Qed.

(** X14 at a run where every request times out. *)
Lemma X14_scrape_at_most_eleven_harvested_witness :
  List.length
    (fallback scrape_system_design_questions.extract_common_questions
       "Mastercard") <=
  11 + List.length
         (fallback scrape_system_design_questions.extract_common_questions
            "Mastercard").
Proof.
  apply (X14_scrape_at_most_eleven_harvested listed_order net_down
           scrape_system_design_questions.extract_common_questions
           "Mastercard" initial_state).
  reflexivity.
Defined.

(* ================================================================== *)
(** ** Further properties: keywords of the final lists *)

Lemma Substring_trans (a b c : string) :
  Substring a b -> Substring b c -> Substring a c.
Proof.
  intros [p [q ->]] [p' [q' ->]].
  exists (p' ++ p)%string, (q ++ q')%string.
  now rewrite !string_app_assoc.
Qed.

Lemma has_keyword_weaken (keywords keywords' : list string) (t : string) :
  (forall kw, In kw keywords ->
              exists kw', In kw' keywords' /\ Substring kw' kw) ->
  has_keyword keywords t -> has_keyword keywords' t.
Proof.
  intros Hsub [kw [Hin Hkw]].
  destruct (Hsub kw Hin) as [kw' [Hin' Hkw']].
  exists kw'. split; [exact Hin' | now apply Substring_trans with kw].
Qed.

Lemma design_in_system_design : Substring "design" "system design".
Proof. now exists "system ", "". Qed.

Lemma table_entries_have_design (table : dict (list string))
    (company t : string) :
  forallb (fun '(_, known) =>
             forallb (fun q => contains "design" (lower q)) known) table
    = true ->
  In t (fallback table company) -> has_keyword ["design"] t.
Proof.
  intros Hall. unfold fallback.
  destruct (dict_get company table) as [known|] eqn:E; [|intros []].
  apply dict_get_In in E.
  rewrite forallb_forall in Hall. specialize (Hall _ E). cbv beta iota in Hall.
  rewrite forallb_forall in Hall. intros Hin.
  exists "design". split; [now left|]. apply contains_spec. now apply Hall.
Qed.

(** X15. Every title of a final list has a keyword, the fallback entries
    as well.  In [scrape_questions] every title returned has, lower-cased,
    ["design"], ["system"] or ["interview"].  In the JSON variant every
    title of a list that the scrape returns has ["design"] or
    ["architecture"]: the keyword ["system design"] of the three searches
    adds nothing to ["design"]. *)
Theorem X15_every_final_title_has_a_keyword (so : SetOrder) (net : network)
    (company : string) (s : state) :
  (exists qs,
      value_of (scrape_questions.search_questions so net company) s = Ok qs /\
      forall t, In t qs -> has_keyword ["design"; "system"; "interview"] t) /\
  (forall qs,
      value_of (scrape_system_design_questions.scrape_company_questions
                  so net company) s = Ok qs ->
      forall t, In t qs -> has_keyword ["design"; "architecture"] t).
Proof.
  split.
  - exists (text_questions so net company).
    split; [apply value_of_search_questions|].
    intros t Hin. unfold text_questions in Hin.
    rewrite list_of_set_In, in_app_iff in Hin. destruct Hin as [Hin|Hin].
    + now apply text_harvest_keyword with (net := net) (company := company).
    + apply has_keyword_weaken with (keywords := ["design"]).
      * intros kw [<-|[]]. exists "design". split; [now left|].
        now exists "", "".
      * apply table_entries_have_design
          with (table := scrape_questions.known_questions)
               (company := company); [reflexivity | exact Hin].
  - intros qs. unfold scrape_system_design_questions.scrape_company_questions.
    rewrite value_of_scrape_with. intros Hv t Hin.
    apply (aggregated_value_In so net _ company qs t Hv) in Hin.
    destruct Hin as [_ [[l [Hl Hin]]|[[a [Ha Hin]]|[[g [Hg Hin]]|Hin]]]].
    + apply has_keyword_weaken
        with (keywords := ["system design"; "design"; "architecture"]);
        [|now apply leetcode_titles_keyword with (1 := Hl)].
      intros kw [<-|[<-|[<-|[]]]].
      * exists "design". split; [now left | apply design_in_system_design].
      * exists "design". split; [now left | now exists "", ""].
      * exists "architecture". split; [now right; left | now exists "", ""].
    + apply has_keyword_weaken with (keywords := ["system design"]);
        [|now apply alternative_titles_keyword with (1 := Ha)].
      intros kw [<-|[]].
      exists "design". split; [now left | apply design_in_system_design].
    + apply has_keyword_weaken with (keywords := ["system design"]);
        [|now apply github_titles_keyword with (1 := Hg)].
      intros kw [<-|[]].
      exists "design". split; [now left | apply design_in_system_design].
    + apply has_keyword_weaken with (keywords := ["design"]).
      * intros kw [<-|[]]. exists "design". split; [now left|].
        now exists "", "".
      * apply table_entries_have_design
          with (table :=
                  scrape_system_design_questions.extract_common_questions)
               (company := company); [reflexivity | exact Hin].
Qed.

(** X15 at a run where every request times out. *)
Lemma X15_every_final_title_has_a_keyword_witness :
  has_keyword ["design"; "architecture"] "Design a fraud detection system".
Proof.
  apply (proj2 (X15_every_final_title_has_a_keyword listed_order net_down
                  "PayPal" initial_state)
           (fallback scrape_system_design_questions.extract_common_questions
              "PayPal")).
  - reflexivity.
  - right. left. reflexivity.
Defined.

(* ================================================================== *)
(** ** Further properties: [main] of the JSON variant *)

Lemma dict_keys_set_new {V : Type} (k : string) (v : V) (d : dict V) :
  ~ In k (dict_keys d) -> dict_keys (dict_set k v d) = dict_keys d ++ [k].
Proof.
  unfold dict_keys. induction d as [|[k' v'] d IH]; intros Hk; simpl.
  - reflexivity.
  - destruct (String.eqb_spec k k') as [->|Hne].
    + elim Hk. now left.
    + simpl. rewrite IH; [reflexivity|]. intros Hin. apply Hk. now right.
Qed.

Lemma loop_keys (so : SetOrder) (net : network) (cs : list string)
    (s : state) :
  NoDup cs ->
  (forall c, In c cs -> ~ In c (dict_keys (results s))) ->
  dict_keys (results (fold_left (aggregated_step so net) cs s)) =
  dict_keys (results s) ++
  filter
    (fun c =>
       match aggregated_value so net
               scrape_system_design_questions.extract_common_questions c with
       | Ok _ => true
       | Raise _ => false
       end) cs.
Proof.
  intros Hnd. revert s.
  induction Hnd as [|c cs Hc Hnd IH]; intros s Hfresh; cbn [fold_left filter].
  - now rewrite app_nil_r.
  - assert (Hcs : forall c', In c' cs -> c' <> c).
    { intros c' Hin ->. contradiction. }
    unfold aggregated_step at 2.
    destruct (aggregated_value so net _ c) as [qs|e].
    + rewrite IH.
      * cbn [results with_result add_log].
        rewrite dict_keys_set_new by (apply Hfresh; now left).
        now rewrite <- app_assoc.
      * intros c' Hin. cbn [results with_result add_log].
        rewrite dict_keys_set_new by (apply Hfresh; now left).
        rewrite in_app_iff. intros [H|[H|[]]].
        -- apply (Hfresh c'); [now right | exact H].
        -- apply (Hcs c' Hin). now symmetry.
    + rewrite IH; [reflexivity|].
      intros c' Hin. apply Hfresh. now right.
Qed.

(** X16. The JSON object that [main] writes, for a list of companies
    without repetition.  Its keys are the companies whose scrape returns,
    in the order of the list, and a company has there the list that its
    scrape returned; a company whose scrape raises is left out and the
    others keep their places. *)
Theorem X16_json_members_are_the_scraped_companies (so : SetOrder)
    (net : network) (companies : list string) (s : state) :
  NoDup companies ->
  exists members,
    dict_get scrape_system_design_questions.output_file
      (files (state_after
                (scrape_system_design_questions.main_for so net companies) s))
      = Some (Json members) /\
    dict_keys members =
      filter
        (fun c =>
           match value_of
                   (scrape_system_design_questions.scrape_company_questions
                      so net c) s with
           | Ok _ => true
           | Raise _ => false
           end) companies /\
    forall c qs,
      dict_get c members = Some qs <->
      In c companies /\
      value_of (scrape_system_design_questions.scrape_company_questions
                  so net c) s = Ok qs.
Proof.
  intros Hnd. unfold state_after. rewrite main_for_run. cbn [snd files].
  eexists. split; [apply dict_get_set_same|]. split.
  - rewrite loop_keys; [|exact Hnd | intros c _ []].
    cbn [results dict_keys map app].
    apply filter_ext. intros c.
    unfold scrape_system_design_questions.scrape_company_questions.
    now rewrite value_of_scrape_with.
  - intros c qs.
    unfold scrape_system_design_questions.scrape_company_questions.
    rewrite value_of_scrape_with. split.
    + intros H. apply loop_results_inv in H.
      destruct H as [H|H]; [discriminate H | exact H].
    + intros [Hin Hv]. now apply loop_results_ok.
Qed.

(** X16 at a run where LeetCode answers 503 for Atlassian and every other
    request times out: the keys are PayPal and Mastercard. *)
Lemma X16_json_members_are_the_scraped_companies_witness :
  exists members,
    dict_get scrape_system_design_questions.output_file
      (files (state_after
                (scrape_system_design_questions.main_for
                   listed_order net_atlassian_503
                   ["Atlassian"; "PayPal"; "Mastercard"]) initial_state))
      = Some (Json members) /\
    dict_keys members =
      filter
        (fun c =>
           match value_of
                   (scrape_system_design_questions.scrape_company_questions
                      listed_order net_atlassian_503 c) initial_state with
           | Ok _ => true
           | Raise _ => false
           end) ["Atlassian"; "PayPal"; "Mastercard"] /\
    forall c qs,
      dict_get c members = Some qs <->
      In c ["Atlassian"; "PayPal"; "Mastercard"] /\
      value_of (scrape_system_design_questions.scrape_company_questions
                  listed_order net_atlassian_503 c) initial_state = Ok qs.
Proof.
  apply (X16_json_members_are_the_scraped_companies listed_order
           net_atlassian_503 ["Atlassian"; "PayPal"; "Mastercard"]
           initial_state).
  repeat (constructor; [simpl; intuition discriminate|]). constructor.
Defined.

Lemma aggregated_log_no_processing (net : network) (company c : string)
    (e : exn) :
  ~ In (ErrorProcessing c e) (aggregated_log net company).
Proof.
  unfold aggregated_log, leetcode_log, alternative_log, github_log.
  destruct (leetcode_titles net company);
    destruct (alternative_titles net company);
    destruct (net LeetCodeDiscuss
                  (scrape_system_design_questions.leetcode_query company));
    destruct (net DuckDuckGoHtml
                  (scrape_system_design_questions.alternative_query company));
    destruct (net GitHubRepoSearch
                  (scrape_system_design_questions.github_query company))
      as [e3|r3];
    try (destruct (status_code r3 =? 200)%Z);
    try (destruct (body_json (content r3)));
    simpl; intuition discriminate.
Qed.

Lemma loop_stdout_processing (so : SetOrder) (net : network)
    (cs : list string) (s : state) (c : string) (e : exn) :
  In (ErrorProcessing c e)
     (stdout (fold_left (aggregated_step so net) cs s)) <->
  In (ErrorProcessing c e) (stdout s) \/
  (In c cs /\
   aggregated_value so net
     scrape_system_design_questions.extract_common_questions c = Raise e).
Proof.
  revert s. induction cs as [|c' cs IH]; intros s; cbn [fold_left].
  - simpl. tauto.
  - rewrite IH. unfold aggregated_step at 1.
    pose proof (aggregated_log_no_processing net c' c e) as Hlog.
    destruct (aggregated_value so net _ c') as [qs|e'] eqn:E;
      cbn [stdout with_result add_log]; rewrite !in_app_iff; cbn [In].
    + split.
      * intros [[H|H]|[Hin Hv]]; [now left | contradiction | right].
        split; [now right | exact Hv].
      * intros [H|[[<-|Hin] Hv]]; [now left; left | congruence | right].
        now split.
    + split.
      * intros [[H|[H|[[= <- <-]|[]]]]|[Hin Hv]].
        -- now left.
        -- contradiction.
        -- right. split; [now left | exact E].
        -- right. split; [now right | exact Hv].
      * intros [H|[[<-|Hin] Hv]].
        -- now left; left.
        -- left. right. right. left. congruence.
        -- right. now split.
Qed.

(** X17. [main] of the JSON variant reports a company exactly when its
    scrape raises.  After [main], an error report for a company with an
    exception is in what was printed exactly when it was there before, or
    the company is in the list and its scrape raises that exception; a
    company whose scrape returns is never reported. *)
Theorem X17_main_reports_exactly_the_failed_companies (so : SetOrder)
    (net : network) (companies : list string) (s : state) (c : string)
    (e : exn) :
  In (ErrorProcessing c e)
     (stdout (state_after
                (scrape_system_design_questions.main_for so net companies) s))
  <->
  In (ErrorProcessing c e) (stdout s) \/
  (In c companies /\
   value_of (scrape_system_design_questions.scrape_company_questions
               so net c) s = Raise e).
Proof.
  unfold state_after. rewrite main_for_run. cbn [snd stdout].
  rewrite loop_stdout_processing. cbn [stdout].
  unfold scrape_system_design_questions.scrape_company_questions.
  now rewrite value_of_scrape_with.
Qed.

(* ================================================================== *)
(** ** Further properties: the queries of [enhanced_scraper] *)

Lemma string_length_app (a b : string) :
  String.length (a ++ b) = String.length a + String.length b.
Proof. induction a as [|x a IH]; simpl; [reflexivity | now rewrite IH]. Qed.

Lemma last_char_app (a b : string) :
  b <> "" -> last_char (a ++ b) = last_char b.
Proof.
  intros Hb. induction a as [|x a IH]; [reflexivity|].
  change (String x a ++ b)%string with (String x (a ++ b)).
  cbn [last_char]. destruct (a ++ b)%string as [|y r] eqn:E.
  - destruct a; [now elim Hb | discriminate E].
  - exact IH.
Qed.

Lemma last_char_app3 (a b c : string) :
  c <> "" -> last_char (a ++ b ++ c) = last_char c.
Proof.
  intros Hc. rewrite <- string_app_assoc. now apply last_char_app.
Qed.

(** X18. For every company [search_comprehensive] sends ten queries, no
    two of them equal, and each has the name of the company in it. *)
Theorem X18_search_queries_are_distinct (company : string) :
  List.length (enhanced_scraper.search_queries company) = 10 /\
  NoDup (enhanced_scraper.search_queries company) /\
  forall q, In q (enhanced_scraper.search_queries company) ->
            Substring company q.
Proof.
  split; [reflexivity|]. split.
  - apply NoDup_map_inv
      with (f := fun q => (String.length q, last_char q)).
    unfold enhanced_scraper.search_queries. cbn [map].
    rewrite !last_char_app3 by discriminate.
    rewrite !last_char_app by discriminate.
    rewrite !string_length_app.
    cbn [String.length last_char].
    repeat (constructor;
            [ cbn [In]; intros H;
              repeat (destruct H as [H|H];
                      [injection H; intros; first [congruence | lia]|]);
              exact H
            |]).
    constructor.
  - intros q Hin. unfold enhanced_scraper.search_queries in Hin.
    cbn [In] in Hin.
    repeat (destruct Hin as [<-|Hin];
            [first [ exists ""; eexists; reflexivity
                   | eexists; eexists; reflexivity ]|]).
    destruct Hin.
Qed.

(* ================================================================== *)
(** ** Further properties: what a result depends on *)

Lemma flat_map_ext_In {A B : Type} (f g : A -> list B) (xs : list A) :
  (forall x, In x xs -> f x = g x) -> flat_map f xs = flat_map g xs.
Proof.
  induction xs as [|x xs IH]; intros H; cbn [flat_map]; [reflexivity|].
  rewrite (H x (or_introl eq_refl)), IH; [reflexivity|].
  intros y Hy. apply H. now right.
Qed.

(** X19. What is done for a company depends on the answers to the
    requests of that company alone: with two networks that answer these
    requests alike, the search (or the scrape) for the company returns the
    same, prints the same and leaves the same state, whatever the networks
    answer to other requests. *)
Theorem X19_a_company_depends_on_its_own_requests (so : SetOrder)
    (net net' : network) (table : dict (list string)) (company : string)
    (s : state) :
  (agree_on net net'
     [(DuckDuckGoHtml, scrape_questions.search_query company)] ->
   scrape_questions.search_questions so net company s =
   scrape_questions.search_questions so net' company s) /\
  (agree_on net net' (aggregated_requests company) ->
   scrape_system_design_questions.scrape_company_questions_with
     so net table company s =
   scrape_system_design_questions.scrape_company_questions_with
     so net' table company s) /\
  (agree_on net net'
     (map (pair DuckDuckGoHtml) (enhanced_scraper.search_queries company)) ->
   enhanced_scraper.search_comprehensive so net company s =
   enhanced_scraper.search_comprehensive so net' company s).
Proof.
  split; [|split].
  - intros H. rewrite !search_questions_run.
    unfold text_harvest, text_log.
    now rewrite (H DuckDuckGoHtml _ (or_introl eq_refl)).
  - intros H. rewrite !scrape_company_questions_with_run.
    assert (Hl : leetcode_titles net company = leetcode_titles net' company
                 /\ leetcode_log net company = leetcode_log net' company).
    { unfold leetcode_titles, leetcode_log.
      now rewrite (H LeetCodeDiscuss _ (or_introl eq_refl)). }
    assert (Ha : alternative_titles net company
                 = alternative_titles net' company
                 /\ alternative_log net company
                    = alternative_log net' company).
    { unfold alternative_titles, alternative_log.
      now rewrite (H DuckDuckGoHtml _ (or_intror (or_introl eq_refl))). }
    assert (Hg : github_titles net company = github_titles net' company
                 /\ github_log net company = github_log net' company).
    { unfold github_titles, github_log.
      now rewrite (H GitHubRepoSearch _
                     (or_intror (or_intror (or_introl eq_refl)))). }
    destruct Hl as [Hl Hl'], Ha as [Ha Ha'], Hg as [Hg Hg'].
    unfold aggregated_value, aggregated_log.
    now rewrite Hl, Hl', Ha, Ha', Hg, Hg'.
  - intros H. rewrite !search_comprehensive_run. unfold enhanced_questions.
    assert (Hq : forall q, In q (enhanced_scraper.search_queries company) ->
                           net DuckDuckGoHtml q = net' DuckDuckGoHtml q).
    { intros q Hin. apply H. apply in_map_iff. now exists q. }
    rewrite (flat_map_ext_In (enhanced_harvest net) (enhanced_harvest net')),
            (flat_map_ext_In (enhanced_log net) (enhanced_log net'));
      [reflexivity| |].
    + intros q Hin. unfold enhanced_log. now rewrite (Hq q Hin).
    + intros q Hin. unfold enhanced_harvest. now rewrite (Hq q Hin).
Qed.

(** X19 for PayPal: the network where LeetCode answers 503 for Atlassian
    and the network where every request times out answer the requests of
    PayPal alike. *)
Lemma X19_a_company_depends_on_its_own_requests_witness :
  scrape_system_design_questions.scrape_company_questions_with
    listed_order net_atlassian_503
    scrape_system_design_questions.extract_common_questions
    "PayPal" initial_state =
  scrape_system_design_questions.scrape_company_questions_with
    listed_order net_down
    scrape_system_design_questions.extract_common_questions
    "PayPal" initial_state.
Proof.
  apply (proj1 (proj2 (X19_a_company_depends_on_its_own_requests
                         listed_order net_atlassian_503 net_down
                         scrape_system_design_questions.extract_common_questions
                         "PayPal" initial_state))).
  intros ep q [[= <- <-]|[[= <- <-]|[[= <- <-]|[]]]]; reflexivity.
Defined.

Lemma Permutation_filter_keeps {A : Type} (p : A -> bool) (xs ys : list A) :
  Permutation xs ys -> Permutation (filter p xs) (filter p ys).
Proof.
  induction 1 as [|x xs ys _ IH|x y xs|xs ys zs _ IH1 _ IH2]; cbn [filter].
  - constructor.
  - destruct (p x); [now constructor | exact IH].
  - destruct (p x), (p y); try reflexivity. apply perm_swap.
  - now transitivity (filter p ys).
Qed.

Lemma list_of_set_any_order (so so' : SetOrder) (xs : list string) :
  Permutation (list_of_set so xs) (list_of_set so' xs).
Proof.
  transitivity (nodup string_dec xs);
    [|apply Permutation_sym]; apply list_of_set_perm.
Qed.

(** X20. The order in which sets are iterated changes nothing but the
    order of the result.  With two iteration orders and the same network,
    the lists that [search_questions] and [search_comprehensive] return are
    permutations of each other, and the scrape of the JSON variant raises
    under both or returns lists that are permutations of each other. *)
Theorem X20_set_order_only_permutes_the_result (so so' : SetOrder)
    (net : network) (table : dict (list string)) (company : string)
    (s : state) :
  (exists qs qs',
      value_of (scrape_questions.search_questions so net company) s = Ok qs /\
      value_of (scrape_questions.search_questions so' net company) s = Ok qs' /\
      Permutation qs qs') /\
  (exists qs qs',
      value_of (enhanced_scraper.search_comprehensive so net company) s
        = Ok qs /\
      value_of (enhanced_scraper.search_comprehensive so' net company) s
        = Ok qs' /\
      Permutation qs qs') /\
  match value_of
          (scrape_system_design_questions.scrape_company_questions_with
             so net table company) s,
        value_of
          (scrape_system_design_questions.scrape_company_questions_with
             so' net table company) s with
  | Ok qs, Ok qs' => Permutation qs qs'
  | Raise e, Raise e' => e = e'
  | _, _ => False
  end.
Proof.
  split; [|split].
  - exists (text_questions so net company), (text_questions so' net company).
    split; [apply value_of_search_questions|].
    split; [apply value_of_search_questions|].
    apply list_of_set_any_order.
  - exists (enhanced_questions so net company),
           (enhanced_questions so' net company).
    split; [apply value_of_search_comprehensive|].
    split; [apply value_of_search_comprehensive|].
    apply list_of_set_any_order.
  - rewrite !value_of_scrape_with. unfold aggregated_value.
    destruct (leetcode_titles net company); [|reflexivity].
    destruct (alternative_titles net company); [|reflexivity].
    destruct (github_titles net company); [|reflexivity].
    apply Permutation_filter_keeps, list_of_set_any_order.
Qed.

(* ================================================================== *)
(** ** Further properties: the header bundles *)

Lemma choice_In (draw : nat) (xs : list string) :
  draw < List.length xs -> In (choice draw xs) xs.
Proof. intros H. unfold choice. now apply nth_In. Qed.

(** X21. Whatever index [random.choice] draws (one of three in the two
    text scripts, one of four in the scraper class), [get_headers] returns
    a bundle with the same keys in the same order, whose [User-Agent] is a
    member of the pool and whose other headers do not depend on the draw.
    Every agent of a pool is drawn by some index, and the agents of a pool
    differ from one another: three in the text scripts, four in the class.
    The two text scripts build the same bundle for the same draw, and
    every agent of their pool is in the pool of the scraper class. *)
Theorem X21_get_headers_rotates_the_user_agent_only (draw : nat) :
  (draw < List.length scrape_questions.user_agents ->
   exists ua,
     dict_get "User-Agent" (scrape_questions.get_headers draw) = Some ua /\
     In ua scrape_questions.user_agents) /\
  (draw < List.length scrape_system_design_questions.user_agents ->
   exists ua,
     dict_get "User-Agent" (scrape_system_design_questions.get_headers draw)
       = Some ua /\
     In ua scrape_system_design_questions.user_agents) /\
  (List.length scrape_questions.user_agents = 3 /\
   NoDup scrape_questions.user_agents /\
   forall ua,
     In ua scrape_questions.user_agents ->
     exists d,
       d < 3 /\
       dict_get "User-Agent" (scrape_questions.get_headers d) = Some ua) /\
  (List.length scrape_system_design_questions.user_agents = 4 /\
   NoDup scrape_system_design_questions.user_agents /\
   forall ua,
     In ua scrape_system_design_questions.user_agents ->
     exists d,
       d < 4 /\
       dict_get "User-Agent" (scrape_system_design_questions.get_headers d)
         = Some ua) /\
  dict_keys (scrape_questions.get_headers draw) =
    ["User-Agent"; "Accept"; "Accept-Language"; "Connection"] /\
  dict_keys (scrape_system_design_questions.get_headers draw) =
    ["User-Agent"; "Accept"; "Accept-Language"; "Accept-Encoding";
     "Connection"; "Upgrade-Insecure-Requests"] /\
  (forall key,
      key <> "User-Agent" ->
      dict_get key (scrape_questions.get_headers draw) =
      dict_get key (scrape_questions.get_headers 0) /\
      dict_get key (scrape_system_design_questions.get_headers draw) =
      dict_get key (scrape_system_design_questions.get_headers 0)) /\
  enhanced_scraper.get_headers draw = scrape_questions.get_headers draw /\
  incl scrape_questions.user_agents
       scrape_system_design_questions.user_agents.
Proof.
  split; [|split; [|split; [|split; [|split; [|split; [|split; [|split]]]]]]].
  - intros Hdraw. eexists. split; [reflexivity|].
    apply choice_In. exact Hdraw.
  - intros Hdraw. eexists. split; [reflexivity|].
    apply choice_In. exact Hdraw.
  - split; [reflexivity|]. split.
    + repeat (constructor; [simpl; intuition discriminate|]). constructor.
    + intros ua [<-|[<-|[<-|[]]]];
        [exists 0 | exists 1 | exists 2]; (split; [lia | reflexivity]).
  - split; [reflexivity|]. split.
    + repeat (constructor; [simpl; intuition discriminate|]). constructor.
    + intros ua [<-|[<-|[<-|[<-|[]]]]];
        [exists 0 | exists 1 | exists 2 | exists 3];
        (split; [lia | reflexivity]).
  - reflexivity.
  - reflexivity.
  - intros key Hkey. split.
    + unfold scrape_questions.get_headers. cbn [dict_get].
      destruct (String.eqb_spec key "User-Agent");
        [contradiction|reflexivity].
    + unfold scrape_system_design_questions.get_headers. cbn [dict_get].
      destruct (String.eqb_spec key "User-Agent");
        [contradiction|reflexivity].
  - reflexivity.
  - intros ua Hin. simpl in Hin |- *. tauto.
Qed.

(** X21 for the draw 3, the fourth agent of the scraper class. *)
Lemma X21_get_headers_rotates_the_user_agent_only_witness :
  exists ua,
    dict_get "User-Agent" (scrape_system_design_questions.get_headers 3)
      = Some ua /\
    In ua scrape_system_design_questions.user_agents.
Proof.
  apply (proj1 (proj2 (X21_get_headers_rotates_the_user_agent_only 3))).
  simpl. lia.
Defined.
